(** * Research assistant: session memory, search augmentation and provider dispatch

  A shallow embedding of the core of the research assistant
  (memory_manager.py, web_search.py, ai_client.py, document_processor.py,
  app.py, app-terminal.py and the stand-alone research_assistant.py) and of
  the study assistant's back end (ai_providers.py, main.py), with the
  properties of the design document stated and settled against it, and
  further properties read off the code.

  Python values are modelled as follows: [int] as [Z], [str] as [string]
  (a sequence of characters with code points below 256), a value that may
  be [None] as [option], a [dict] used as a map as a [gmap], a [dict] whose
  iteration order is observed as an association list, and a call that may
  raise as an [outcome]. *)

From Stdlib Require Import ZArith Ascii String.
From stdpp Require Import gmap strings list.

Local Open Scope string_scope.
Local Open Scope list_scope.

(** ** Python primitives used by the sources *)

Module Py.

(** The one-character string written ["\n"] in the sources. *)
Definition nl : string := String "010"%char "".

(** [sep.join(l)]. *)
Fixpoint join (sep : string) (l : list string) : string :=
  match l with
  | [] => ""
  | [x] => x
  | x :: xs => x +:+ sep +:+ join sep xs
  end.

(** [l[start:]] for an arbitrary integer [start]: a negative start counts
    from the end, and both ends are clamped to the list. *)
Definition slice_from {A} (start : Z) (l : list A) : list A :=
  let len := Z.of_nat (length l) in
  let lo := if (start <? 0)%Z then Z.max (start + len) 0 else Z.min start len in
  drop (Z.to_nat lo) l.

(** [bool(s)] for a string that may be [None]. *)
Definition truthy (s : option string) : bool :=
  match s with
  | None => false
  | Some v => negb (String.eqb v "")
  end.

(** [str(v)] inside an f-string, for a string that may be [None]. *)
Definition fmt (s : option string) : string :=
  match s with
  | None => "None"
  | Some v => v
  end.

(** The result of a call: a returned value, a raised exception (with its
    message) or a process exit through [sys.exit]. *)
Inductive outcome (A : Type) : Type :=
| Returned (a : A)
| Raised (msg : string)
| Exited (code : Z).
Global Arguments Returned {A} a.
Global Arguments Raised {A} msg.
Global Arguments Exited {A} code.

(** Truth value of a list: [if results:]. *)
Definition nonempty {A} (l : list A) : bool :=
  match l with
  | [] => false
  | _ :: _ => true
  end.

(** [s.lower()], for characters with code points below 256: the ASCII
    capitals and the capitals of the Latin-1 range (all of 192..222 but the
    multiplication sign 215) have their small letter 32 places further. *)
Definition lower_char (c : ascii) : ascii :=
  let n := nat_of_ascii c in
  if (Nat.leb 65 n && Nat.leb n 90) || (Nat.leb 192 n && Nat.leb n 214)
     || (Nat.leb 216 n && Nat.leb n 222)
  then ascii_of_nat (n + 32) else c.

Fixpoint lower (s : string) : string :=
  match s with
  | EmptyString => EmptyString
  | String c rest => String (lower_char c) (lower rest)
  end.

(** [s.split(sep)] for a separator of one character: the pieces between
    the occurrences of [sep]; never the empty list. *)
Fixpoint split_on (sep : ascii) (s : string) : list string :=
  match s with
  | EmptyString => [EmptyString]
  | String c rest =>
      if Ascii.eqb c sep then EmptyString :: split_on sep rest
      else match split_on sep rest with
           | piece :: pieces => String c piece :: pieces
           | [] => [String c EmptyString]
           end
  end.

(** [l[-1]] on a list of strings that is not empty. *)
Definition last_piece (l : list string) : string := List.last l EmptyString.

(** [s[:n]]. *)
Fixpoint prefix (n : nat) (s : string) : string :=
  match n, s with
  | S n', String c rest => String c (prefix n' rest)
  | _, _ => EmptyString
  end.

(** [c.isspace()], for characters with code points below 256. *)
Definition is_space (c : ascii) : bool :=
  let n := nat_of_ascii c in
  (Nat.leb 9 n && Nat.leb n 13) || (Nat.leb 28 n && Nat.leb n 32)
  || Nat.eqb n 133 || Nat.eqb n 160.

Fixpoint lstrip (s : string) : string :=
  match s with
  | EmptyString => EmptyString
  | String c rest => if is_space c then lstrip rest else s
  end.

Fixpoint rstrip (s : string) : string :=
  match s with
  | EmptyString => EmptyString
  | String c rest =>
      match rstrip rest with
      | EmptyString => if is_space c then EmptyString else String c EmptyString
      | kept => String c kept
      end
  end.

(** [s.strip()]. *)
Definition strip (s : string) : string := rstrip (lstrip s).

(** [s.replace(old, new)] for an [old] that is not empty: the occurrences
    of [old] are found from left to right, without overlap.  [skip] counts
    the characters of an occurrence that are still to be passed over. *)
Fixpoint starts_with (old s : string) : bool :=
  match old, s with
  | EmptyString, _ => true
  | String a old', String b s' => Ascii.eqb a b && starts_with old' s'
  | String _ _, EmptyString => false
  end.

Fixpoint replace_from (old new : string) (skip : nat) (s : string) : string :=
  match s with
  | EmptyString => EmptyString
  | String c rest =>
      match skip with
      | S k => replace_from old new k rest
      | O =>
          if starts_with old s
          then new +:+ replace_from old new (String.length old - 1) rest
          else String c (replace_from old new 0 rest)
      end
  end.

Definition replace (old new s : string) : string := replace_from old new 0 s.

(** The characters of a string. *)
Fixpoint chars (s : string) : list ascii :=
  match s with
  | EmptyString => []
  | String c rest => c :: chars rest
  end.

End Py.

(** ** memory_manager.py *)

Module MemoryManager.

(** One recorded [(query, response)] tuple. *)
Definition Exchange : Type := string * string.

Record t : Type := mk {
  conversation_history : gmap string (list Exchange);
  max_history : Z
}.

(** [MemoryManager(max_history_per_session)]. *)
Definition init (max_history_per_session : Z) : t :=
  {| conversation_history := ∅; max_history := max_history_per_session |}.

(** [MemoryManager()]. *)
Definition init_default : t := init 10.

(** [f"Q: {q}\nA: {a}"]. *)
Definition render (e : Exchange) : string :=
  "Q: " +:+ e.1 +:+ Py.nl +:+ "A: " +:+ e.2.

(** [get_context]: returns the context string together with the manager
    as the call leaves it. *)
Definition get_context (self : t) (session_id : string) : string * t :=
  match conversation_history self !! session_id with
  | None => ("", self)
  | Some history =>
      let context_exchanges := Py.slice_from (- max_history self) history in
      (Py.join Py.nl (map render context_exchanges), self)
  end.

Definition add_exchange (self : t) (session_id query response : string) : t :=
  let h0 :=
    match conversation_history self !! session_id with
    | None => []
    | Some history => history
    end in
  let h1 := h0 ++ [(query, response)] in
  let h2 :=
    if (max_history self <? Z.of_nat (length h1))%Z
    then Py.slice_from (- max_history self) h1
    else h1 in
  {| conversation_history := <[session_id := h2]> (conversation_history self);
     max_history := max_history self |}.

Definition clear_session (self : t) (session_id : string) : t :=
  match conversation_history self !! session_id with
  | None => self
  | Some _ =>
      {| conversation_history := delete session_id (conversation_history self);
         max_history := max_history self |}
  end.

(** Sequences of mutating calls. *)
Inductive op : Type :=
| AddExchange (session_id query response : string)
| ClearSession (session_id : string).

Definition session_of (o : op) : string :=
  match o with
  | AddExchange s _ _ => s
  | ClearSession s => s
  end.

Definition step (self : t) (o : op) : t :=
  match o with
  | AddExchange s q r => add_exchange self s q r
  | ClearSession s => clear_session self s
  end.

Definition run (self : t) (ops : list op) : t := foldl step self ops.

(** Appending a list of exchanges to one session, in order. *)
Definition add_all (self : t) (session_id : string) (es : list Exchange) : t :=
  foldl (fun m e => add_exchange m session_id e.1 e.2) self es.

(** The history of a session, [[]] when the session is unknown. *)
Definition history_of (self : t) (session_id : string) : list Exchange :=
  default [] (conversation_history self !! session_id).

(** The calls of a sequence that name the session [a]. *)
Definition project (a : string) (ops : list op) : list op :=
  filter (fun o => session_of o = a) ops.

(** Two managers that session [a] cannot tell apart: the same maximum and
    the same entry (or none) for [a]. *)
Definition same_view (a : string) (m1 m2 : t) : Prop :=
  max_history m1 = max_history m2 /\
  conversation_history m1 !! a = conversation_history m2 !! a.

(** Every stored history holds at most [max_history] exchanges. *)
Definition bounded (self : t) : Prop :=
  forall sid h, conversation_history self !! sid = Some h ->
                (Z.of_nat (length h) <= max_history self)%Z.

(** Every stored history is empty. *)
Definition all_empty (self : t) : Prop :=
  forall sid h, conversation_history self !! sid = Some h -> h = [].

End MemoryManager.

(** ** The outside world: environment, search backends, provider APIs *)

Module Ext.

(** Parameters of [serpapi.search(params)]. *)
Record serpapi_params : Type := SerpParams {
  sp_q : string;
  sp_api_key : option string;
  sp_engine : string;
  sp_num : Z
}.

(** Parameters of [service.cse().list(q=, cx=, num=).execute()], with the
    developer key the service was built with. *)
Record pse_params : Type := PseParams {
  pp_developerKey : option string;
  pp_q : string;
  pp_cx : option string;
  pp_num : Z
}.

(** One entry of a backend's raw result list: a JSON object, of which the
    client reads three keys with [.get], or any other JSON value, on which
    [.get] raises. *)
Inductive raw_item : Type :=
| RawObject (title link snippet : option string)
| RawOther.

(** A request to a provider API.  [HttpPost] is [requests.post(url,
    headers=, json=payload, timeout=)] followed by [raise_for_status] and
    the extraction of the answer text; the payload's constant temperature
    (a float) is left out. *)
Inductive llm_request : Type :=
| HttpPost (url : option string) (headers : list (string * option string))
           (model : string) (system : option string)
           (messages : list (string * string))
           (max_tokens : Z) (timeout : option Z)
| GeminiGenerate (model prompt : string)
| HFTextGeneration (model : string) (token : option string)
                   (prompt : string) (max_new_tokens : Z).

(** What a run does to the outside world, in order: the calls to the
    search backends and to the provider APIs (the network calls), the
    registration of the Gemini key with its SDK, and the lines printed. *)
Inductive event : Type :=
| SerpAPISearch (p : serpapi_params)
| PSEExecute (p : pse_params)
| LLMCall (r : llm_request)
| GenaiConfigure (api_key : option string)
| Print (msg : string).

(** The answer of an external call: a value, or an exception with its
    message. *)
Inductive answer (A : Type) : Type :=
| Ok (a : A)
| Fail (msg : string).
Global Arguments Ok {A} a.
Global Arguments Fail {A} msg.

Definition outcome_of {A} (x : answer A) : Py.outcome A :=
  match x with
  | Ok a => Py.Returned a
  | Fail msg => Py.Raised msg
  end.

(** The answers of the outside world.  A backend answers with the value of
    its result key ([None] when the key is missing) or raises; a provider
    API answers with the text of the completion or raises.  The content of
    a completion is taken to be a string: a completion whose content is
    JSON null or another value, which the adapters would hand on as it is,
    is outside this model. *)
Record World : Type := mkWorld {
  getenv : string -> option string;
  serpapi_search : serpapi_params -> answer (option (list raw_item));
  pse_execute : pse_params -> answer (option (list raw_item));
  llm : llm_request -> answer string;
  uuid4 : string
}.

(** Computations that log their events and end in an outcome. *)
Definition io (A : Type) : Type := list event * Py.outcome A.

Definition ret {A} (a : A) : io A := ([], Py.Returned a).

Definition bind {A B} (m : io A) (k : A -> io B) : io B :=
  match m with
  | (l, Py.Returned a) => let (l', r) := k a in (l ++ l', r)
  | (l, Py.Raised msg) => (l, Py.Raised msg)
  | (l, Py.Exited c) => (l, Py.Exited c)
  end.

(** [try: body  except Exception as e: handler(str(e))]; a [sys.exit] is
    not an [Exception] and passes through. *)
Definition try_except {A} (body : io A) (handler : string -> io A) : io A :=
  match body with
  | (l, Py.Raised msg) => let (l', r) := handler msg in (l ++ l', r)
  | other => other
  end.

(** An external call: logged, then answered by the world. *)
Definition call {A} (e : event) (x : answer A) : io A := ([e], outcome_of x).

Definition print (msg : string) : io unit := ([Print msg], Py.Returned tt).

Definition lift {A} (o : Py.outcome A) : io A := ([], o).

Definition events {A} (m : io A) : list event := m.1.
Definition result {A} (m : io A) : Py.outcome A := m.2.

End Ext.

Notation "'let!' x ':=' m 'in' k" := (Ext.bind m (fun x => k))
  (at level 10, x name, m at level 100, k at level 200).

(** ** web_search.py *)

Module WebSearch.

Record SearchResult : Type := mkResult {
  title : option string;
  link : option string;
  snippet : option string;
  source : string
}.

Record t : Type := mk {
  serpapi_enabled : bool;
  google_pse_enabled : bool
}.

(** [WebSearchClient()]. *)
Definition init (w : Ext.World) : t :=
  {| serpapi_enabled := Py.truthy (Ext.getenv w "SERPAPI_API_KEY");
     google_pse_enabled :=
       Py.truthy (Ext.getenv w "GOOGLE_PSE_ID")
       && Py.truthy (Ext.getenv w "GOOGLE_API_KEY") |}.

(** The loop [for result in ...: results.append({...})] of both backends. *)
Fixpoint collect (src : string) (results : list SearchResult)
    (items : list Ext.raw_item) : Py.outcome (list SearchResult) :=
  match items with
  | [] => Py.Returned results
  | Ext.RawObject t l s :: rest =>
      collect src
        (results ++ [{| title := t; link := l; snippet := s; source := src |}])
        rest
  | Ext.RawOther :: _ => Py.Raised "AttributeError: object has no attribute 'get'"
  end.

Definition _search_serpapi (w : Ext.World) (query : string)
  : Ext.io (list SearchResult) :=
  Ext.try_except
    (let params :=
       {| Ext.sp_q := query;
          Ext.sp_api_key := Ext.getenv w "SERPAPI_API_KEY";
          Ext.sp_engine := "google";
          Ext.sp_num := 5 |} in
     let! search := Ext.call (Ext.SerpAPISearch params) (Ext.serpapi_search w params) in
     Ext.lift (collect "SerpAPI" [] (default [] search)))
    (fun e =>
       let! _ := Ext.print ("SerpAPI search error: " +:+ e) in
       Ext.ret []).

Definition _search_google_pse (w : Ext.World) (query : string)
  : Ext.io (list SearchResult) :=
  Ext.try_except
    (let params :=
       {| Ext.pp_developerKey := Ext.getenv w "GOOGLE_API_KEY";
          Ext.pp_q := query;
          Ext.pp_cx := Ext.getenv w "GOOGLE_PSE_ID";
          Ext.pp_num := 5 |} in
     let! result := Ext.call (Ext.PSEExecute params) (Ext.pse_execute w params) in
     Ext.lift (collect "Google PSE" [] (default [] result)))
    (fun e =>
       let! _ := Ext.print ("Google PSE search error: " +:+ e) in
       Ext.ret []).

Definition search (self : t) (w : Ext.World) (query engine : string)
  : Ext.io (list SearchResult) :=
  if String.eqb engine "auto" then
    let second : Ext.io (list SearchResult) :=
      if google_pse_enabled self then
        let! results := _search_google_pse w query in
        if Py.nonempty results then Ext.ret results else Ext.ret []
      else Ext.ret [] in
    if serpapi_enabled self then
      let! results := _search_serpapi w query in
      if Py.nonempty results then Ext.ret results else second
    else second
  else if String.eqb engine "serpapi" && serpapi_enabled self then
    _search_serpapi w query
  else if String.eqb engine "google_pse" && google_pse_enabled self then
    _search_google_pse w query
  else Ext.ret [].

Definition is_available (self : t) : bool :=
  serpapi_enabled self || google_pse_enabled self.

(** The backends return no more results than the [num] they are asked for. *)
Definition honours_num (w : Ext.World) : Prop :=
  (forall p items, Ext.serpapi_search w p = Ext.Ok (Some items) ->
                   (Z.of_nat (length items) <= Ext.sp_num p)%Z) /\
  (forall p items, Ext.pse_execute w p = Ext.Ok (Some items) ->
                   (Z.of_nat (length items) <= Ext.pp_num p)%Z).

(** The request parameters that [_search_serpapi] and [_search_google_pse]
    build for a query. *)
Definition serpapi_request (w : Ext.World) (query : string) : Ext.serpapi_params :=
  {| Ext.sp_q := query;
     Ext.sp_api_key := Ext.getenv w "SERPAPI_API_KEY";
     Ext.sp_engine := "google";
     Ext.sp_num := 5 |}.

Definition pse_request (w : Ext.World) (query : string) : Ext.pse_params :=
  {| Ext.pp_developerKey := Ext.getenv w "GOOGLE_API_KEY";
     Ext.pp_q := query;
     Ext.pp_cx := Ext.getenv w "GOOGLE_PSE_ID";
     Ext.pp_num := 5 |}.

End WebSearch.

(** ** ai_client.py *)

Module AIClient.

Record ProviderConfig : Type := mkConfig {
  name : string;
  api_key : option string;
  api_url : option string;
  headers : list (string * option string);
  enabled : bool
}.

(** [self.providers]: a dict literal, iterated in the order it is written. *)
Record t : Type := mk {
  providers : list (string * ProviderConfig)
}.

(** [d[k]] on a dict kept as an association list; a missing key raises a
    [KeyError], whose message is the key in quotes. *)
Fixpoint getitem {V} (d : list (string * V)) (k : string) : Py.outcome V :=
  match d with
  | [] => Py.Raised ("'" +:+ k +:+ "'")
  | (k', v) :: rest => if String.eqb k' k then Py.Returned v else getitem rest k
  end.

Definition preamble : string :=
  "You are a helpful research assistant. Provide detailed, accurate information with sources when possible.".

(** The dict literal of [_initialize_providers]. *)
Definition provider_table (w : Ext.World) : list (string * ProviderConfig) :=
  let env := Ext.getenv w in
    [ ("deepseek",
       {| name := "DeepSeek";
          api_key := env "DEEPSEEK_API_KEY";
          api_url := Some "https://api.deepseek.com/v1/chat/completions";
          headers :=
            [ ("Authorization", Some ("Bearer " +:+ Py.fmt (env "DEEPSEEK_API_KEY")));
              ("Content-Type", Some "application/json") ];
          enabled := Py.truthy (env "DEEPSEEK_API_KEY") |});
      ("openai",
       {| name := "OpenAI";
          api_key := env "OPENAI_API_KEY";
          api_url := Some "https://api.openai.com/v1/chat/completions";
          headers :=
            [ ("Authorization", Some ("Bearer " +:+ Py.fmt (env "OPENAI_API_KEY")));
              ("Content-Type", Some "application/json") ];
          enabled := Py.truthy (env "OPENAI_API_KEY") |});
      ("anthropic",
       {| name := "Anthropic";
          api_key := env "ANTHROPIC_API_KEY";
          api_url := Some "https://api.anthropic.com/v1/messages";
          headers :=
            [ ("x-api-key", env "ANTHROPIC_API_KEY");
              ("anthropic-version", Some "2023-06-01");
              ("Content-Type", Some "application/json") ];
          enabled := Py.truthy (env "ANTHROPIC_API_KEY") |});
      ("gemini",
       {| name := "Google Gemini";
          api_key := env "GEMINI_API_KEY";
          api_url := None;
          headers := [];
          enabled := Py.truthy (env "GEMINI_API_KEY") |});
      ("huggingface",
       {| name := "Hugging Face";
          api_key := env "HUGGINGFACE_API_KEY";
          api_url := Some "https://api-inference.huggingface.co/models/mistralai/Mixtral-8x7B-Instruct-v0.1";
          headers := [];
          enabled := Py.truthy (env "HUGGINGFACE_API_KEY") |}) ].

Definition _initialize_providers (w : Ext.World)
  : Ext.io (list (string * ProviderConfig)) :=
  let providers := provider_table w in
  let! gemini := Ext.lift (getitem providers "gemini") in
  let! _ :=
    if enabled gemini
    then Ext.call (Ext.GenaiConfigure (api_key gemini)) (Ext.Ok tt)
    else Ext.ret tt in
  Ext.ret providers.

(** [AIClient()]. *)
Definition init (w : Ext.World) : Ext.io t :=
  let! providers := _initialize_providers w in
  Ext.ret {| providers := providers |}.

Definition get_available_providers (self : t) : list string :=
  map fst (filter (fun nc => enabled nc.2 = true) (providers self)).

(** The message list of the two chat-completion adapters. *)
Definition chat_messages (query context : string) : list (string * string) :=
  [("system", preamble)]
  ++ (if String.eqb context "" then []
      else [("system", "Context from previous conversation: " +:+ context)])
  ++ [("user", query)].

Definition _query_deepseek (self : t) (w : Ext.World) (query context : string)
  : Ext.io string :=
  let messages := chat_messages query context in
  Ext.try_except
    (let! cfg := Ext.lift (getitem (providers self) "deepseek") in
     let rq := Ext.HttpPost (api_url cfg) (headers cfg) "deepseek-chat" None
                 messages 2000 (Some 30%Z) in
     Ext.call (Ext.LLMCall rq) (Ext.llm w rq))
    (fun e => Ext.ret ("Error calling DeepSeek API: " +:+ e)).

Definition _query_openai (self : t) (w : Ext.World) (query context : string)
  : Ext.io string :=
  let messages := chat_messages query context in
  Ext.try_except
    (let! cfg := Ext.lift (getitem (providers self) "openai") in
     let rq := Ext.HttpPost (api_url cfg) (headers cfg) "gpt-3.5-turbo" None
                 messages 2000 (Some 30%Z) in
     Ext.call (Ext.LLMCall rq) (Ext.llm w rq))
    (fun e => Ext.ret ("Error calling OpenAI API: " +:+ e)).

(** A prompt that starts with [head] and carries the context when there is one. *)
Definition with_context (head context : string) : string :=
  if String.eqb context "" then head
  else head +:+ Py.nl +:+ Py.nl +:+ "Context from previous conversation: " +:+ context.

Definition _query_anthropic (self : t) (w : Ext.World) (query context : string)
  : Ext.io string :=
  let system_message := with_context preamble context in
  Ext.try_except
    (let! cfg := Ext.lift (getitem (providers self) "anthropic") in
     let rq := Ext.HttpPost (api_url cfg) (headers cfg) "claude-3-sonnet-20240229"
                 (Some system_message) [("user", query)] 2000 (Some 30%Z) in
     Ext.call (Ext.LLMCall rq) (Ext.llm w rq))
    (fun e => Ext.ret ("Error calling Anthropic API: " +:+ e)).

Definition _query_gemini (self : t) (w : Ext.World) (query context : string)
  : Ext.io string :=
  Ext.try_except
    (let prompt :=
       with_context preamble context +:+ Py.nl +:+ Py.nl +:+ "User query: " +:+ query in
     let rq := Ext.GeminiGenerate "gemini-2.0-flash" prompt in
     Ext.call (Ext.LLMCall rq) (Ext.llm w rq))
    (fun e => Ext.ret ("Error calling Gemini API: " +:+ e)).

Definition _query_huggingface (self : t) (w : Ext.World) (query context : string)
  : Ext.io string :=
  Ext.try_except
    (let! cfg := Ext.lift (getitem (providers self) "huggingface") in
     let prompt :=
       with_context ("<s>[INST] " +:+ preamble) context
       +:+ Py.nl +:+ Py.nl +:+ "User query: " +:+ query +:+ " [/INST]" in
     let rq := Ext.HFTextGeneration "mistralai/Mixtral-8x7B-Instruct-v0.1"
                 (api_key cfg) prompt 2000 in
     Ext.call (Ext.LLMCall rq) (Ext.llm w rq))
    (fun e => Ext.ret ("Error calling Hugging Face API: " +:+ e)).

Definition query (self : t) (w : Ext.World) (provider query context : string)
  : Ext.io string :=
  if negb (bool_decide (provider ∈ get_available_providers self)) then
    Ext.ret ("Provider '" +:+ provider +:+ "' is not available.")
  else if String.eqb provider "deepseek" then _query_deepseek self w query context
  else if String.eqb provider "openai" then _query_openai self w query context
  else if String.eqb provider "anthropic" then _query_anthropic self w query context
  else if String.eqb provider "gemini" then _query_gemini self w query context
  else if String.eqb provider "huggingface" then _query_huggingface self w query context
  else Ext.ret ("Unknown provider: " +:+ provider).

End AIClient.

(** ** research_assistant.py *)

Module ResearchAssistant.

Record ProviderConfig : Type := mkConfig {
  name : string;
  api_key : option string;
  api_url : string;
  headers : list (string * option string)
}.

Record t : Type := mk {
  providers : list (string * ProviderConfig);
  default_provider : string;
  available_providers : list string
}.

(** The dict literal of [__init__]. *)
Definition provider_table (w : Ext.World) : list (string * ProviderConfig) :=
  let env := Ext.getenv w in
  [ ("deepseek",
     {| name := "DeepSeek";
        api_key := env "DEEPSEEK_API_KEY";
        api_url := "https://api.deepseek.com/v1/chat/completions";
        headers :=
          [ ("Authorization", Some ("Bearer " +:+ Py.fmt (env "DEEPSEEK_API_KEY")));
            ("Content-Type", Some "application/json") ] |});
    ("openai",
     {| name := "OpenAI";
        api_key := env "OPENAI_API_KEY";
        api_url := "https://api.openai.com/v1/chat/completions";
        headers :=
          [ ("Authorization", Some ("Bearer " +:+ Py.fmt (env "OPENAI_API_KEY")));
            ("Content-Type", Some "application/json") ] |});
    ("anthropic",
     {| name := "Anthropic";
        api_key := env "ANTHROPIC_API_KEY";
        api_url := "https://api.anthropic.com/v1/messages";
        headers :=
          [ ("x-api-key", env "ANTHROPIC_API_KEY");
            ("anthropic-version", Some "2023-06-01");
            ("Content-Type", Some "application/json") ] |}) ].

(** [config["api_key"] and config["api_key"] != "your_api_key_here"]. *)
Definition key_valid (k : option string) : bool :=
  Py.truthy k && negb (bool_decide (k = Some "your_api_key_here")).

Definition _check_available_providers (providers : list (string * ProviderConfig))
  : list string :=
  foldl (fun available pc =>
           if key_valid (api_key pc.2) then available ++ [pc.1] else available)
        [] providers.

(** [ResearchAssistant(default_provider)]. *)
Definition init (w : Ext.World) (default_provider : string) : Ext.io t :=
  let providers := provider_table w in
  let available := _check_available_providers providers in
  if negb (Py.nonempty available) then
    Ext.lift (Py.Raised "ValueError: No AI providers configured. Please check your API keys.")
  else
    Ext.ret {| providers := providers;
               default_provider := default_provider;
               available_providers := available |}.

Definition _call_deepseek (self : t) (w : Ext.World) (query : string) : Ext.io string :=
  Ext.try_except
    (let! cfg := Ext.lift (AIClient.getitem (providers self) "deepseek") in
     let rq := Ext.HttpPost (Some (api_url cfg)) (headers cfg) "deepseek-chat" None
                 [("system", AIClient.preamble); ("user", query)] 2000 None in
     Ext.call (Ext.LLMCall rq) (Ext.llm w rq))
    (fun e => Ext.ret ("Error calling DeepSeek API: " +:+ e)).

Definition _call_openai (self : t) (w : Ext.World) (query : string) : Ext.io string :=
  Ext.try_except
    (let! cfg := Ext.lift (AIClient.getitem (providers self) "openai") in
     let rq := Ext.HttpPost (Some (api_url cfg)) (headers cfg) "gpt-3.5-turbo" None
                 [("system", AIClient.preamble); ("user", query)] 2000 None in
     Ext.call (Ext.LLMCall rq) (Ext.llm w rq))
    (fun e => Ext.ret ("Error calling OpenAI API: " +:+ e)).

Definition _call_anthropic (self : t) (w : Ext.World) (query : string) : Ext.io string :=
  Ext.try_except
    (let! cfg := Ext.lift (AIClient.getitem (providers self) "anthropic") in
     let rq := Ext.HttpPost (Some (api_url cfg)) (headers cfg) "claude-3-sonnet-20240229"
                 (Some AIClient.preamble) [("user", query)] 2000 None in
     Ext.call (Ext.LLMCall rq) (Ext.llm w rq))
    (fun e => Ext.ret ("Error calling Anthropic API: " +:+ e)).

Definition research (self : t) (w : Ext.World) (query : string)
    (provider : option string) : Ext.io string :=
  let provider :=
    if Py.truthy provider then Py.fmt provider else default_provider self in
  if negb (bool_decide (provider ∈ available_providers self)) then
    Ext.ret ("Provider '" +:+ provider +:+ "' is not available. Available providers: "
             +:+ Py.join ", " (available_providers self))
  else
    let! cfg := Ext.lift (AIClient.getitem (providers self) provider) in
    let! _ := Ext.print ("Researching with " +:+ name cfg +:+ "...") in
    if String.eqb provider "deepseek" then _call_deepseek self w query
    else if String.eqb provider "openai" then _call_openai self w query
    else if String.eqb provider "anthropic" then _call_anthropic self w query
    else Ext.ret ("Unknown provider: " +:+ provider).

End ResearchAssistant.

(** ** document_processor.py *)

Module DocumentProcessor.

(** The files on disk, by path, and what the document libraries make of the
    bytes of a file: the text of each page of a PDF (the extraction of a
    page may fail on its own), the paragraphs of a Word document, the UTF-8
    decoding of a text file; and the messages of the exceptions that
    [open] and [docx.Document] raise for a path where no file is. *)
Record Files : Type := mkFiles {
  disk : gmap string string;
  pdf_pages : string -> Ext.answer (list (Ext.answer string));
  docx_paragraphs : string -> Ext.answer (list string);
  utf8_decode : string -> Ext.answer string;
  open_error : string -> string;
  docx_error : string -> string
}.

Record t : Type := mk {
  supported_extensions : list string
}.

(** [DocumentProcessor()]. *)
Definition init : t := {| supported_extensions := ["txt"; "pdf"; "docx"] |}.

Definition bind {A B} (x : Ext.answer A) (k : A -> Ext.answer B) : Ext.answer B :=
  match x with
  | Ext.Ok a => k a
  | Ext.Fail msg => Ext.Fail msg
  end.

(** Opening a file: its bytes, or an exception when there is no such file. *)
Definition open (fs : Files) (file_path : string) : Ext.answer string :=
  match disk fs !! file_path with
  | Some bytes => Ext.Ok bytes
  | None => Ext.Fail (open_error fs file_path)
  end.

(** [docx.Document(file_path)]. *)
Definition open_docx (fs : Files) (file_path : string) : Ext.answer (list string) :=
  match disk fs !! file_path with
  | Some bytes => docx_paragraphs fs bytes
  | None => Ext.Fail (docx_error fs file_path)
  end.

(** The loop [for page in pdf_reader.pages: text += page.extract_text()]. *)
Fixpoint concat_pages (text : string) (pages : list (Ext.answer string))
  : Ext.answer string :=
  match pages with
  | [] => Ext.Ok text
  | page :: rest => bind page (fun t => concat_pages (text +:+ t) rest)
  end.

Definition extract_text (self : t) (fs : Files) (file_path file_extension : string)
  : string :=
  let body : Ext.answer string :=
    if String.eqb file_extension "pdf" then
      bind (open fs file_path) (fun bytes =>
      bind (pdf_pages fs bytes) (fun pages =>
      concat_pages "" pages))
    else if String.eqb file_extension "docx" then
      bind (open_docx fs file_path) (fun paragraphs =>
      Ext.Ok (Py.join Py.nl paragraphs))
    else if String.eqb file_extension "txt" then
      bind (open fs file_path) (fun bytes => utf8_decode fs bytes)
    else Ext.Ok "Unsupported file type" in
  match body with
  | Ext.Ok text => text
  | Ext.Fail e => "Error extracting text: " +:+ e
  end.

Definition get_extension (self : t) (filename : string) : string :=
  Py.lower (Py.last_piece (Py.split_on "." filename)).

Definition is_supported (self : t) (filename : string) : bool :=
  let file_extension := Py.lower (Py.last_piece (Py.split_on "." filename)) in
  bool_decide (file_extension ∈ supported_extensions self).

End DocumentProcessor.

(** ** app.py *)

Module App.

(** The module-level components. *)
Record t : Type := mk {
  ai_client : AIClient.t;
  web_search : WebSearch.t;
  memory_manager : MemoryManager.t
}.

(** The initialisation at import time: [AIClient()], [WebSearchClient()],
    [MemoryManager()]. *)
Definition startup (w : Ext.World) : Ext.io t :=
  let! ai := AIClient.init w in
  Ext.ret {| ai_client := ai;
             web_search := WebSearch.init w;
             memory_manager := MemoryManager.init_default |}.

(** The JSON body of a request to [/api/research]; a missing key is [None].
    The values are taken to have the types the clients send: strings for
    the query, the provider and the session id, a boolean for the
    web-search flag.  A body that is not an object, or that holds values of
    other types, is outside this model (on a session id that is a list,
    for instance, the handler fails). *)
Record request : Type := mkRequest {
  rq_query : option string;
  rq_provider : option string;
  rq_web_search : option bool;
  rq_session_id : option string
}.

Record reply : Type := mkReply {
  response : string;
  search_results : list WebSearch.SearchResult;
  session_id : string
}.

(** [f"Source: {r['title']}\nContent: {r['snippet']}"]. *)
Definition render_source (r : WebSearch.SearchResult) : string :=
  "Source: " +:+ Py.fmt (WebSearch.title r) +:+ Py.nl
  +:+ "Content: " +:+ Py.fmt (WebSearch.snippet r).

(** [f"{query}\n\nHere are some web search results for context:\n{search_context}"]. *)
Definition augment (query : string) (results : list WebSearch.SearchResult) : string :=
  let search_context := Py.join Py.nl (map render_source results) in
  query +:+ Py.nl +:+ Py.nl +:+ "Here are some web search results for context:"
  +:+ Py.nl +:+ search_context.

(** [api_research]: the reply together with the components as the call
    leaves them. *)
Definition api_research (app : t) (w : Ext.World) (data : request)
  : Ext.io (reply * t) :=
  let query := default "" (rq_query data) in
  let provider :=
    default
      (match AIClient.get_available_providers (ai_client app) with
       | p :: _ => p
       | [] => "deepseek"
       end)
      (rq_provider data) in
  let use_web_search := default false (rq_web_search data) in
  let session_id := default (Ext.uuid4 w) (rq_session_id data) in
  let '(context, mm) := MemoryManager.get_context (memory_manager app) session_id in
  let! searched :=
    if use_web_search && WebSearch.is_available (web_search app) then
      let! search_results := WebSearch.search (web_search app) w query "auto" in
      if Py.nonempty search_results
      then Ext.ret (search_results, augment query search_results)
      else Ext.ret (search_results, query)
    else Ext.ret ([], query) in
  let '(search_results, query) := searched in
  let! response := AIClient.query (ai_client app) w provider query context in
  let mm := MemoryManager.add_exchange mm session_id query response in
  Ext.ret ({| response := response;
              search_results := search_results;
              session_id := session_id |},
           {| ai_client := ai_client app;
              web_search := web_search app;
              memory_manager := mm |}).

(** An uploaded file: the name the client gave it and its bytes. *)
Record upload : Type := mkUpload {
  filename : string;
  content : string
}.

(** The form of a request to [/api/analyze_document]; a missing field is
    [None]. *)
Record doc_request : Type := mkDocRequest {
  dr_file : option upload;
  dr_query : option string;
  dr_provider : option string;
  dr_session_id : option string
}.

(** The JSON body and the status of the answer. *)
Inductive doc_reply : Type :=
| DocError (error : string) (status : Z)
| DocOk (response : string) (session_id : string).

(** The f-string [document_query]; the remark after the document text is
    part of the string. *)
Definition document_query (text query : string) : string :=
  Py.nl +:+ "    Analyze the following document content and answer the user's query."
  +:+ Py.nl +:+ "    "
  +:+ Py.nl +:+ "    DOCUMENT CONTENT:"
  +:+ Py.nl +:+ "    " +:+ Py.prefix 4000 text +:+ "  # Limit to first 4000 characters"
  +:+ Py.nl +:+ "    "
  +:+ Py.nl +:+ "    USER QUERY: " +:+ query
  +:+ Py.nl +:+ "    "
  +:+ Py.nl +:+ "    Please provide a comprehensive analysis based on the document content."
  +:+ Py.nl +:+ "    ".

(** [api_analyze_document]: the answer together with the components and
    the files as the call leaves them.  [tmp] is the name that
    [NamedTemporaryFile] picks, before the suffix. *)
Definition api_analyze_document (app : t) (w : Ext.World)
    (fs : DocumentProcessor.Files) (tmp : string) (form : doc_request)
  : Ext.io (doc_reply * t * DocumentProcessor.Files) :=
  let document_processor := DocumentProcessor.init in
  match dr_file form with
  | None => Ext.ret (DocError "No file uploaded" 400, app, fs)
  | Some file =>
      let query := default "Analyze this document" (dr_query form) in
      let provider :=
        default
          (match AIClient.get_available_providers (ai_client app) with
           | p :: _ => p
           | [] => "deepseek"
           end)
          (dr_provider form) in
      let session_id := default (Ext.uuid4 w) (dr_session_id form) in
      if negb (DocumentProcessor.is_supported document_processor (filename file)) then
        Ext.ret (DocError "Unsupported file type" 400, app, fs)
      else
        let file_extension :=
          DocumentProcessor.get_extension document_processor (filename file) in
        let temp_name := tmp +:+ "." +:+ file_extension in
        let saved :=
          DocumentProcessor.mkFiles
            (<[temp_name := content file]> (DocumentProcessor.disk fs))
            (DocumentProcessor.pdf_pages fs)
            (DocumentProcessor.docx_paragraphs fs)
            (DocumentProcessor.utf8_decode fs)
            (DocumentProcessor.open_error fs)
            (DocumentProcessor.docx_error fs) in
        let text :=
          DocumentProcessor.extract_text document_processor saved temp_name
            file_extension in
        let unlinked :=
          DocumentProcessor.mkFiles
            (delete temp_name (DocumentProcessor.disk saved))
            (DocumentProcessor.pdf_pages fs)
            (DocumentProcessor.docx_paragraphs fs)
            (DocumentProcessor.utf8_decode fs)
            (DocumentProcessor.open_error fs)
            (DocumentProcessor.docx_error fs) in
        let '(context, mm) :=
          MemoryManager.get_context (memory_manager app) session_id in
        let document_query := document_query text query in
        let! response :=
          AIClient.query (ai_client app) w provider document_query context in
        let mm :=
          MemoryManager.add_exchange mm session_id
            ("Document analysis query: " +:+ query) response in
        Ext.ret (DocOk response session_id,
                 {| ai_client := ai_client app;
                    web_search := web_search app;
                    memory_manager := mm |},
                 unlinked)
  end.

(** What the handler of a socket event sends back with [emit]. *)
Inductive emitted : Type :=
| ResearchStatus (status : string)
| ResearchComplete (response : string)
                   (search_results : list WebSearch.SearchResult)
                   (session_id : string).

(** [response.strip()] with every blank line and then every line break
    turned into HTML breaks, as [handle_research_request] does before it
    sends the answer. *)
Definition beautify (response : string) : string :=
  let beautified_response := Py.strip response in
  Py.replace Py.nl "<br>"
    (Py.replace (Py.nl +:+ Py.nl) "<br><br>" beautified_response).

(** [handle_research_request]: what is emitted, in order, together with
    the components as the call leaves them.  The answer of the provider is
    a string in this model (see [Ext.World]), so of the two branches of the
    [isinstance] test only the one for a [str] is modelled; the other one
    sends [str(response)]. *)
Definition handle_research_request (app : t) (w : Ext.World) (data : request)
  : Ext.io (list emitted * t) :=
  let query := default "" (rq_query data) in
  let provider :=
    default
      (match AIClient.get_available_providers (ai_client app) with
       | p :: _ => p
       | [] => "deepseek"
       end)
      (rq_provider data) in
  let use_web_search := default false (rq_web_search data) in
  let session_id := default (Ext.uuid4 w) (rq_session_id data) in
  let status := ResearchStatus "searching" in
  let '(context, mm) := MemoryManager.get_context (memory_manager app) session_id in
  let! searched :=
    if use_web_search && WebSearch.is_available (web_search app) then
      let! search_results := WebSearch.search (web_search app) w query "auto" in
      if Py.nonempty search_results
      then Ext.ret (search_results, augment query search_results)
      else Ext.ret (search_results, query)
    else Ext.ret ([], query) in
  let '(search_results, query) := searched in
  let! response := AIClient.query (ai_client app) w provider query context in
  let mm := MemoryManager.add_exchange mm session_id query response in
  let beautified_response := beautify response in
  Ext.ret ([status; ResearchComplete beautified_response search_results session_id],
           {| ai_client := ai_client app;
              web_search := web_search app;
              memory_manager := mm |}).

End App.

(** ** app-terminal.py *)

Module Terminal.

Record t : Type := mk {
  ai_client : AIClient.t;
  web_search : WebSearch.t;
  memory_manager : MemoryManager.t;
  current_provider : string;
  use_web_search : bool;
  session_id : string
}.

(** [TerminalResearchAssistant(default_provider, use_web_search)], up to the
    welcome banner, which is display only. *)
Definition init (w : Ext.World) (default_provider : string) (use_web_search : bool)
  : Ext.io t :=
  let! ai := AIClient.init w in
  let ws := WebSearch.init w in
  let mm := MemoryManager.init_default in
  let available_providers := AIClient.get_available_providers ai in
  let! current :=
    if bool_decide (default_provider ∈ available_providers) then Ext.ret default_provider
    else match available_providers with
         | p :: _ => Ext.ret p
         | [] =>
             let! _ := Ext.print "Error: No AI providers configured. Please check your API keys." in
             Ext.lift (Py.Exited 1)
         end in
  Ext.ret {| ai_client := ai;
             web_search := ws;
             memory_manager := mm;
             current_provider := current;
             use_web_search := use_web_search && WebSearch.is_available ws;
             session_id := Ext.uuid4 w |}.

End Terminal.

(** ** personal-study-assistant: ai_providers.py and main.py *)

Module StudyAssistant.

(** What the study assistant sees of the outside: the environment, whether
    the two client packages could be imported, the answers of the two
    completion services (OpenAI by model, prompt and [max_tokens]; Gemini
    by model, prompt and [max_output_tokens], whose text may be [None]),
    and how a request object prints. *)
Record Sys : Type := mkSys {
  getenv : string -> option string;
  openai_installed : bool;
  ggen_installed : bool;
  openai_chat : string -> string -> Z -> Ext.answer string;
  gemini_generate_text : string -> string -> Z -> Ext.answer (option string);
  show_request : string -> string -> string
}.

(** A provider object; the OpenAI one has stored its key in the client
    package. *)
Inductive provider : Type :=
| OpenAIProvider (api_key : string)
| GeminiProvider.

(** [OpenAIProvider()]. *)
Definition new_openai (sys : Sys) : Ext.io provider :=
  let api_key := getenv sys "OPENAI_API_KEY" in
  if negb (Py.truthy api_key) then
    Ext.lift (Py.Raised "RuntimeError: OPENAI_API_KEY not set")
  else if negb (openai_installed sys) then
    Ext.lift (Py.Raised "RuntimeError: openai package not installed")
  else Ext.ret (OpenAIProvider (Py.fmt api_key)).

(** [GeminiProvider()]. *)
Definition new_gemini (sys : Sys) : Ext.io provider :=
  if negb (ggen_installed sys) then
    Ext.lift (Py.Raised "RuntimeError: google.generativeai package not installed")
  else
    let api_key := getenv sys "GOOGLE_API_KEY" in
    if negb (Py.truthy api_key)
       && negb (Py.truthy (getenv sys "GOOGLE_APPLICATION_CREDENTIALS")) then
      Ext.lift (Py.Raised
        "RuntimeError: Either GOOGLE_API_KEY or GOOGLE_APPLICATION_CREDENTIALS must be set")
    else
      let! _ :=
        if Py.truthy api_key
        then Ext.call (Ext.GenaiConfigure api_key) (Ext.Ok tt)
        else Ext.ret tt in
      Ext.ret GeminiProvider.

(** [provider.generate(prompt, mode)]. *)
Definition generate (p : provider) (sys : Sys) (prompt mode : string)
  : Ext.answer (option string) :=
  match p with
  | OpenAIProvider _ =>
      let model := default "gpt-4o-mini" (getenv sys "OPENAI_MODEL") in
      match openai_chat sys model prompt 600 with
      | Ext.Ok content => Ext.Ok (Some (Py.strip content))
      | Ext.Fail msg => Ext.Fail msg
      end
  | GeminiProvider =>
      let model := default "models/text-bison-001" (getenv sys "GOOGLE_GEMINI_MODEL") in
      gemini_generate_text sys model prompt 600
  end.

(** The module-level state of main.py: the provider name and object. *)
Record t : Type := mk {
  PROVIDER : string;
  the_provider : provider
}.

(** The configuration at import time. *)
Definition startup (sys : Sys) : Ext.io t :=
  let PROVIDER := Py.lower (default "gemini" (getenv sys "AI_PROVIDER")) in
  let! provider :=
    if String.eqb PROVIDER "openai" then new_openai sys
    else if bool_decide (PROVIDER ∈ ["gemini"; "google"]) then new_gemini sys
    else Ext.lift (Py.Raised ("RuntimeError: Unsupported AI_PROVIDER: " +:+ PROVIDER)) in
  let! _ := Ext.print ("Using AI provider: " +:+ PROVIDER) in
  Ext.ret {| PROVIDER := PROVIDER; the_provider := provider |}.

(** The answer of [/api/chat]: the JSON body, or the [HTTPException]. *)
Inductive chat_reply : Type :=
| ChatOk (provider : string) (response : option string)
| HTTPException (status_code : Z) (detail : string).

(** [chat(req)], for a request with the fields [prompt] and [mode]. *)
Definition chat (self : t) (sys : Sys) (prompt mode : string) : Ext.io chat_reply :=
  let! _ := Ext.print ("Received request: " +:+ show_request sys prompt mode) in
  match generate (the_provider self) sys prompt mode with
  | Ext.Ok resp => Ext.ret (ChatOk (PROVIDER self) resp)
  | Ext.Fail e =>
      let! _ := Ext.print ("Error processing request: " +:+ e) in
      Ext.ret (HTTPException 500 e)
  end.

End StudyAssistant.

(** ** Concrete worlds *)

Module Examples.

(** The environment that sets the listed variables and no other. *)
Fixpoint env_of (vars : list (string * string)) (k : string) : option string :=
  match vars with
  | [] => None
  | (k', v) :: rest => if String.eqb k' k then Some v else env_of rest k
  end.

Definition item (t s : string) : Ext.raw_item :=
  Ext.RawObject (Some t) (Some ("https://example.org/" +:+ t)) (Some s).

(** A backend that holds [items] and answers with the first [num] of them. *)
Definition capped (items : list Ext.raw_item) (num : Z)
  : Ext.answer (option (list Ext.raw_item)) :=
  if (0 <=? num)%Z then Ext.Ok (Some (take (Z.to_nat num) items))
  else Ext.Fail "invalid num".

(** SerpAPI and DeepSeek keys; SerpAPI finds the results "A" and "B". *)
Definition two_results : Ext.World :=
  Ext.mkWorld
    (env_of [("SERPAPI_API_KEY", "serp-key"); ("DEEPSEEK_API_KEY", "ds-key")])
    (fun p => capped [item "A" "sa"; item "B" "sb"] (Ext.sp_num p))
    (fun p => capped [] (Ext.pp_num p))
    (fun _ => Ext.Ok "answer")
    "0b5c1f9e".

(** The client that [AIClient()] builds in that world: only "deepseek" is
    enabled. *)
Definition deepseek_client : AIClient.t :=
  {| AIClient.providers := AIClient.provider_table two_results |}.

(** The web application as it starts in that world. *)
Definition web_app : App.t :=
  {| App.ai_client := deepseek_client;
     App.web_search := WebSearch.init two_results;
     App.memory_manager := MemoryManager.init_default |}.

(** A request with web search switched on. *)
Definition search_request : App.request :=
  {| App.rq_query := Some "What is Rocq?";
     App.rq_provider := Some "deepseek";
     App.rq_web_search := Some true;
     App.rq_session_id := Some "s1" |}.

(** The same keys; SerpAPI answers with six results whatever [num] is. *)
Definition six_results : Ext.World :=
  Ext.mkWorld
    (env_of [("SERPAPI_API_KEY", "serp-key"); ("DEEPSEEK_API_KEY", "ds-key")])
    (fun _ => Ext.Ok (Some [item "A" "sa"; item "B" "sb"; item "C" "sc";
                            item "D" "sd"; item "E" "se"; item "F" "sf"]))
    (fun _ => Ext.Fail "not configured")
    (fun _ => Ext.Ok "answer")
    "0b5c1f9e".

(** Both search backends have keys; SerpAPI is down and Google PSE finds
    one result. *)
Definition serpapi_down : Ext.World :=
  Ext.mkWorld
    (env_of [("SERPAPI_API_KEY", "serp-key"); ("GOOGLE_PSE_ID", "cx");
             ("GOOGLE_API_KEY", "g-key"); ("DEEPSEEK_API_KEY", "ds-key")])
    (fun _ => Ext.Fail "Connection refused")
    (fun p => capped [item "P" "sp"] (Ext.pp_num p))
    (fun _ => Ext.Ok "answer")
    "0b5c1f9e".

(** Both search backends have keys, and both answer with a list that holds
    a value which is not a JSON object. *)
Definition malformed_answers : Ext.World :=
  Ext.mkWorld
    (env_of [("SERPAPI_API_KEY", "serp-key"); ("GOOGLE_PSE_ID", "cx");
             ("GOOGLE_API_KEY", "g-key"); ("DEEPSEEK_API_KEY", "ds-key")])
    (fun _ => Ext.Ok (Some [item "A" "sa"; Ext.RawOther; item "C" "sc"]))
    (fun _ => Ext.Ok (Some [Ext.RawOther]))
    (fun _ => Ext.Ok "answer")
    "0b5c1f9e".

(** Every provider has a key, and every provider API is down. *)
Definition apis_down : Ext.World :=
  Ext.mkWorld
    (env_of [("DEEPSEEK_API_KEY", "ds-key"); ("OPENAI_API_KEY", "oa-key");
             ("ANTHROPIC_API_KEY", "an-key"); ("GEMINI_API_KEY", "ge-key");
             ("HUGGINGFACE_API_KEY", "hf-key")])
    (fun _ => Ext.Fail "missing key")
    (fun _ => Ext.Fail "missing key")
    (fun _ => Ext.Fail "503 Server Error: Service Unavailable")
    "0b5c1f9e".

(** An empty disk, and libraries that accept plain text only: a text file
    decodes to its bytes, unless these are "broken". *)
Definition plain_text_only : DocumentProcessor.Files :=
  DocumentProcessor.mkFiles ∅
    (fun _ => Ext.Fail "EOF marker not found")
    (fun _ => Ext.Fail "File is not a zip file")
    (fun bytes =>
       if String.eqb bytes "broken"
       then Ext.Fail "'utf-8' codec can't decode byte 0xff in position 0: invalid start byte"
       else Ext.Ok bytes)
    (fun path => "[Errno 2] No such file or directory: '" +:+ path +:+ "'")
    (fun path => "Package not found at '" +:+ path +:+ "'").

(** An upload of a text file that does not decode. *)
Definition broken_upload : App.doc_request :=
  {| App.dr_file := Some {| App.filename := "notes.TXT"; App.content := "broken" |};
     App.dr_query := Some "Summarise";
     App.dr_provider := Some "deepseek";
     App.dr_session_id := Some "s1" |}.

(** No variable is set. *)
Definition no_keys : Ext.World :=
  Ext.mkWorld (env_of [])
    (fun _ => Ext.Fail "missing key")
    (fun _ => Ext.Fail "missing key")
    (fun _ => Ext.Fail "401 Client Error: Unauthorized")
    "0b5c1f9e".

(** The DeepSeek key holds the placeholder value. *)
Definition placeholder_key : Ext.World :=
  Ext.mkWorld (env_of [("DEEPSEEK_API_KEY", "your_api_key_here")])
    (fun _ => Ext.Fail "missing key")
    (fun _ => Ext.Fail "missing key")
    (fun _ => Ext.Fail "401 Client Error: Unauthorized")
    "0b5c1f9e".

End Examples.

(** * Properties *)

(** ** Python primitives *)

Section PyFacts.
Context {A : Type}.
Implicit Types (l : list A) (n : Z).

Lemma slice_from_neg_pos n l :
  (0 < n)%Z -> Py.slice_from (- n) l = drop (length l - Z.to_nat n) l.
Proof.
  intros Hn. unfold Py.slice_from.
  destruct (Z.ltb_spec (- n) 0) as [_ | Hge]; [ | lia].
  f_equal. lia.
Qed.

Lemma slice_from_zero l : Py.slice_from (- 0) l = l.
Proof.
  unfold Py.slice_from. change (- 0)%Z with 0%Z. simpl.
  replace (Z.to_nat _) with 0%nat by lia. apply drop_0.
Qed.

Lemma slice_from_neg_pos_length n l :
  (0 < n)%Z -> (Z.of_nat (length (Py.slice_from (- n) l)) <= n)%Z.
Proof.
  intros Hn. rewrite slice_from_neg_pos by done.
  rewrite length_drop. lia.
Qed.

Lemma slice_from_short n l :
  (Z.of_nat (length l) <= n)%Z -> (0 < n)%Z -> Py.slice_from (- n) l = l.
Proof.
  intros Hl Hn. rewrite slice_from_neg_pos by done.
  replace (length l - Z.to_nat n)%nat with 0%nat by lia. apply drop_0.
Qed.
End PyFacts.

(** ** Session memory *)

Section MemoryFacts.
Import MemoryManager.
Implicit Types (self : t) (sid : string) (h es : list Exchange) (N : Z).

(** The [n] most recent entries of a list. *)
Local Abbreviation last_n n l := (drop (length l - Z.to_nat n) l).

Lemma last_n_snoc {A} (n : Z) (l : list A) (x : A) :
  (0 < n)%Z -> last_n n (last_n n l ++ [x]) = last_n n (l ++ [x]).
Proof.
  intros Hn. destruct (decide (length l <= Z.to_nat n)) as [Hle | Hgt].
  - replace (length l - Z.to_nat n) with 0 by lia. by rewrite drop_0.
  - rewrite !length_app, length_drop. simpl.
    replace (length l - (length l - Z.to_nat n) + 1 - Z.to_nat n) with 1 by lia.
    replace (length l + 1 - Z.to_nat n) with ((length l - Z.to_nat n) + 1) by lia.
    rewrite <- (drop_drop (l ++ [x])).
    by rewrite (drop_app_le l) by lia.
Qed.

Lemma last_n_idem {A} (n : Z) (l : list A) : last_n n (last_n n l) = last_n n l.
Proof.
  rewrite length_drop.
  replace (length l - (length l - Z.to_nat n) - Z.to_nat n) with 0 by lia.
  apply drop_0.
Qed.

Lemma add_exchange_max self sid q r :
  max_history (add_exchange self sid q r) = max_history self.
Proof. reflexivity. Qed.

Lemma clear_session_max self sid :
  max_history (clear_session self sid) = max_history self.
Proof. unfold clear_session. by destruct (_ !! _). Qed.

Lemma step_max self o : max_history (step self o) = max_history self.
Proof. destruct o; [apply add_exchange_max | apply clear_session_max]. Qed.

Lemma run_max self ops : max_history (run self ops) = max_history self.
Proof.
  revert self. induction ops as [| o ops IH]; intros self; [done |].
  unfold run in *. simpl. by rewrite IH, step_max.
Qed.

Lemma add_all_max self sid es : max_history (add_all self sid es) = max_history self.
Proof.
  revert self. induction es as [| e es IH]; intros self; [done |].
  unfold add_all in *. simpl. by rewrite IH.
Qed.

(** What [add_exchange] leaves under the session it is called for. *)
Lemma add_exchange_lookup self sid q r :
  conversation_history (add_exchange self sid q r) !! sid =
  Some (let h1 := history_of self sid ++ [(q, r)] in
        if (max_history self <? Z.of_nat (length h1))%Z
        then Py.slice_from (- max_history self) h1 else h1).
Proof.
  unfold add_exchange, history_of. simpl. rewrite lookup_insert_eq.
  by destruct (conversation_history self !! sid).
Qed.

Lemma add_exchange_lookup_pos self sid q r :
  (0 < max_history self)%Z ->
  conversation_history (add_exchange self sid q r) !! sid =
  Some (last_n (max_history self) (history_of self sid ++ [(q, r)])).
Proof.
  intros Hpos. rewrite add_exchange_lookup. cbv zeta. f_equal.
  destruct (Z.ltb_spec (max_history self)
              (Z.of_nat (length (history_of self sid ++ [(q, r)])))) as [Hlt | Hge].
  - by apply slice_from_neg_pos.
  - replace (length _ - Z.to_nat _) with 0 by lia. by rewrite drop_0.
Qed.

Lemma add_exchange_lookup_ne self sid sid' q r :
  sid ≠ sid' ->
  conversation_history (add_exchange self sid q r) !! sid' =
  conversation_history self !! sid'.
Proof. intros Hne. unfold add_exchange. simpl. by rewrite lookup_insert_ne. Qed.

Lemma clear_session_lookup self sid :
  conversation_history (clear_session self sid) !! sid = None.
Proof.
  unfold clear_session. destruct (conversation_history self !! sid) eqn:E; simpl.
  - apply lookup_delete_eq.
  - done.
Qed.

Lemma clear_session_lookup_ne self sid sid' :
  sid ≠ sid' ->
  conversation_history (clear_session self sid) !! sid' =
  conversation_history self !! sid'.
Proof.
  intros Hne. unfold clear_session.
  destruct (conversation_history self !! sid); simpl; [| done].
  by rewrite lookup_delete_ne.
Qed.

Lemma get_context_unknown self sid :
  conversation_history self !! sid = None -> (get_context self sid).1 = "".
Proof. intros E. unfold get_context. by rewrite E. Qed.

Lemma get_context_known self sid h :
  conversation_history self !! sid = Some h ->
  (get_context self sid).1 =
  Py.join Py.nl (map render (Py.slice_from (- max_history self) h)).
Proof. intros E. unfold get_context. by rewrite E. Qed.

(** *** The bound on stored histories, for a positive maximum *)

Lemma init_bounded N : bounded (init N).
Proof. intros sid h. unfold init. simpl. by rewrite lookup_empty. Qed.

Lemma add_exchange_bounded self sid q r :
  (0 < max_history self)%Z -> bounded self -> bounded (add_exchange self sid q r).
Proof.
  intros Hpos Hb sid' h'. rewrite add_exchange_max.
  destruct (decide (sid = sid')) as [<- | Hne].
  - rewrite add_exchange_lookup_pos by done. intros [= <-].
    rewrite length_drop. lia.
  - rewrite add_exchange_lookup_ne by done. apply Hb.
Qed.

Lemma clear_session_bounded self sid : bounded self -> bounded (clear_session self sid).
Proof.
  intros Hb sid' h'. rewrite clear_session_max.
  destruct (decide (sid = sid')) as [<- | Hne].
  - by rewrite clear_session_lookup.
  - rewrite clear_session_lookup_ne by done. apply Hb.
Qed.

Lemma run_bounded self ops :
  (0 < max_history self)%Z -> bounded self -> bounded (run self ops).
Proof.
  revert self. induction ops as [| o ops IH]; intros self Hpos Hb; [done |].
  unfold run in *. simpl. apply IH.
  - by rewrite step_max.
  - destruct o; simpl; [by apply add_exchange_bounded | by apply clear_session_bounded].
Qed.

(** For a positive maximum [N] the bound of the design document holds in
    every reachable state, and an append keeps exactly the most recent [N]
    exchanges of the extended history. *)
Lemma history_bounded_positive_max N ops sid q r :
  (0 < N)%Z ->
  bounded (run (init N) ops) /\
  history_of (add_exchange (run (init N) ops) sid q r) sid =
  last_n N (history_of (run (init N) ops) sid ++ [(q, r)]).
Proof.
  intros Hpos. split.
  - by apply run_bounded; [| apply init_bounded].
  - unfold history_of at 1. rewrite add_exchange_lookup_pos by by rewrite run_max.
    by rewrite run_max.
Qed.

(** *** A maximum of zero *)

(** With a maximum of [0] nothing is ever dropped: the trimming slice
    [history[-0:]] is the whole list. *)
Lemma add_all_zero_max_keeps_all sid es :
  history_of (add_all (init 0) sid es) sid = es.
Proof.
  induction es as [| e es IH] using rev_ind; [done |].
  unfold add_all in *. rewrite foldl_snoc. unfold history_of at 1.
  rewrite add_exchange_lookup. fold (add_all (init 0) sid es).
  rewrite add_all_max. simpl default. unfold add_all. rewrite IH.
  destruct e as [q r]. simpl fst. simpl snd.
  destruct (_ <? _)%Z; [apply slice_from_zero | done].
Qed.

(** C1 (the code at the failing input): a [MemoryManager(0)] that records
    two exchanges for one session keeps both, so the stored history is
    longer than the maximum and the bound of the design document fails. *)
Theorem add_exchange_zero_max_exceeds :
  let m1 := add_exchange (init 0) "s1" "q1" "r1" in
  let m2 := add_exchange m1 "s1" "q2" "r2" in
  history_of m1 "s1" = [("q1", "r1")] /\
  history_of m2 "s1" = [("q1", "r1"); ("q2", "r2")] /\
  ~ bounded m1 /\ ~ bounded m2.
Proof.
  assert (H1 : history_of (add_exchange (init 0) "s1" "q1" "r1") "s1"
               = [("q1", "r1")])
    by apply (add_all_zero_max_keeps_all "s1" [("q1", "r1")]).
  assert (H2 : history_of
                 (add_exchange (add_exchange (init 0) "s1" "q1" "r1") "s1" "q2" "r2")
                 "s1" = [("q1", "r1"); ("q2", "r2")])
    by apply (add_all_zero_max_keeps_all "s1" [("q1", "r1"); ("q2", "r2")]).
  cbv zeta. split; [done |]. split; [done |]. split.
  - intros Hb. unfold history_of in H1.
    destruct (conversation_history _ !! "s1") as [h |] eqn:E; [| done].
    simpl in H1. subst h. specialize (Hb _ _ E). simpl in Hb. lia.
  - intros Hb. unfold history_of in H2.
    destruct (conversation_history _ !! "s1") as [h |] eqn:E; [| done].
    simpl in H2. subst h. specialize (Hb _ _ E). simpl in Hb. lia.
Qed.

(** *** The context string *)

Lemma add_all_lookup_pos self sid es :
  (0 < max_history self)%Z -> es ≠ [] ->
  conversation_history (add_all self sid es) !! sid =
  Some (last_n (max_history self) (history_of self sid ++ es)).
Proof.
  intros Hpos. induction es as [| e es IH] using rev_ind; [done |]. intros _.
  unfold add_all in *. rewrite foldl_snoc.
  fold (add_all self sid es) in *.
  rewrite add_exchange_lookup_pos by by rewrite add_all_max.
  rewrite add_all_max. f_equal. destruct e as [q r]. simpl fst. simpl snd.
  destruct es as [| e' es'].
  - done.
  - assert (Hh : history_of (add_all self sid (e' :: es')) sid =
                 last_n (max_history self) (history_of self sid ++ e' :: es'))
      by (unfold history_of at 1; by rewrite IH).
    rewrite Hh, last_n_snoc by done. by rewrite <- app_assoc.
Qed.

(** For a positive maximum [N], after [N + k] appends to one session the
    context is the rendering of the last [N] of them, oldest first. *)
Lemma get_context_last_N self sid es (k : nat) :
  (0 < max_history self)%Z ->
  length es = Z.to_nat (max_history self) + k ->
  (get_context (add_all self sid es) sid).1 =
  Py.join Py.nl (map render (drop k es)).
Proof.
  intros Hpos Hlen.
  assert (Hne : es ≠ []) by (intros ->; simpl in Hlen; lia).
  rewrite (get_context_known _ _ _ (add_all_lookup_pos self sid es Hpos Hne)).
  rewrite add_all_max. rewrite slice_from_neg_pos by done.
  rewrite last_n_idem. do 2 f_equal.
  rewrite length_app.
  replace (length (history_of self sid) + length es - Z.to_nat (max_history self))
    with (length (history_of self sid) + k) by lia.
  by rewrite drop_app_add.
Qed.

(** C2 (the code at the failing input): the first half of the claim holds,
    an unseen session has the empty context; but on a [MemoryManager(0)]
    one append ([N = 0], [k = 1]) leaves a context that renders the
    appended exchange, where the last [0] exchanges render as the empty
    string. *)
Theorem get_context_zero_max_not_last_N :
  (forall self sid, conversation_history self !! sid = None ->
                    (get_context self sid).1 = "") /\
  let m := add_all (init 0) "s1" [("q1", "r1")] in
  (get_context m "s1").1 = "Q: q1" +:+ Py.nl +:+ "A: r1" /\
  (get_context m "s1").1 ≠ Py.join Py.nl (map render (drop 1 [("q1", "r1")])).
Proof.
  split; [apply get_context_unknown |]. cbv zeta.
  assert (E : conversation_history (add_all (init 0) "s1" [("q1", "r1")]) !! "s1"
              = Some [("q1", "r1")]).
  { pose proof (add_all_zero_max_keeps_all "s1" [("q1", "r1")]) as H.
    unfold history_of in H. destruct (_ !! "s1"); [simpl in H; by subst | done]. }
  rewrite (get_context_known _ _ _ E). rewrite add_all_max. simpl max_history.
  rewrite slice_from_zero. split; [reflexivity | discriminate].
Qed.

(** *** Sessions do not see each other *)

Lemma same_view_refl a self : same_view a self self.
Proof. by split. Qed.

Lemma same_view_trans a m1 m2 m3 :
  same_view a m1 m2 -> same_view a m2 m3 -> same_view a m1 m3.
Proof. intros [? ?] [? ?]. split; congruence. Qed.

Lemma same_view_sym a m1 m2 : same_view a m1 m2 -> same_view a m2 m1.
Proof. intros [? ?]. by split. Qed.

Lemma same_view_get_context a m1 m2 :
  same_view a m1 m2 -> (get_context m1 a).1 = (get_context m2 a).1.
Proof.
  intros [Hmax Hlook]. unfold get_context. rewrite Hlook, Hmax.
  by destruct (conversation_history m2 !! a).
Qed.

(** A call for another session is invisible to [a]. *)
Lemma step_other a self o : session_of o ≠ a -> same_view a self (step self o).
Proof.
  intros Hne. split; [by rewrite step_max |].
  destruct o as [s q r | s]; simpl in Hne; unfold step; symmetry.
  - by apply add_exchange_lookup_ne.
  - by apply clear_session_lookup_ne.
Qed.

(** The same call on two managers that [a] cannot tell apart. *)
Lemma step_same_view a m1 m2 o :
  same_view a m1 m2 -> same_view a (step m1 o) (step m2 o).
Proof.
  intros Hv. destruct (decide (session_of o = a)) as [Heq | Hne].
  - destruct Hv as [Hmax Hlook]. split; [by rewrite !step_max |].
    destruct o as [s q r | s]; simpl in Heq; subst s; unfold step.
    + rewrite !add_exchange_lookup. unfold history_of. by rewrite Hlook, Hmax.
    + by rewrite !clear_session_lookup.
  - eapply same_view_trans; [| by apply step_other].
    eapply same_view_trans; [| exact Hv].
    apply same_view_sym. by apply step_other.
Qed.

Lemma run_project a m1 m2 ops :
  same_view a m1 m2 -> same_view a (run m1 ops) (run m2 (project a ops)).
Proof.
  revert m1 m2. induction ops as [| o ops IH]; intros m1 m2 Hv; [done |].
  unfold project, run in *. simpl foldl.
  destruct (decide (session_of o = a)) as [Heq | Hne].
  - rewrite filter_cons_True by done. simpl. apply IH. by apply step_same_view.
  - rewrite filter_cons_False by done. apply IH.
    eapply same_view_trans; [| exact Hv]. apply same_view_sym. by apply step_other.
Qed.

Lemma run_same_view a m1 m2 ops :
  same_view a m1 m2 -> same_view a (run m1 ops) (run m2 ops).
Proof.
  revert m1 m2. induction ops as [| o ops IH]; intros m1 m2 Hv; [done |].
  unfold run in *. simpl. apply IH. by apply step_same_view.
Qed.

(** C5: two runs of [add_exchange] and [clear_session] calls whose calls
    for session [a] are the same, in the same order, from managers that
    agree on [a], give the same context for [a], whatever the calls for
    the other sessions are. *)
Theorem no_cross_session_leakage a m1 m2 ops1 ops2 :
  same_view a m1 m2 ->
  project a ops1 = project a ops2 ->
  (get_context (run m1 ops1) a).1 = (get_context (run m2 ops2) a).1.
Proof.
  intros Hv Hp. apply same_view_get_context.
  eapply same_view_trans; [apply run_project, same_view_refl |].
  eapply same_view_trans; [| apply same_view_sym, run_project, same_view_refl].
  rewrite Hp. by apply run_same_view.
Qed.

Lemma no_cross_session_leakage_witness :
  (get_context
     (run (init 10)
        [AddExchange "A" "q1" "r1"; AddExchange "B" "secret" "answer";
         AddExchange "A" "q2" "r2"]) "A").1 =
  (get_context
     (run (init 10)
        [ClearSession "B"; AddExchange "A" "q1" "r1"; AddExchange "A" "q2" "r2";
         AddExchange "C" "other" "thing"]) "A").1.
Proof.
  apply (no_cross_session_leakage "A" (init 10) (init 10)).
  - split; reflexivity.
  - reflexivity.
Defined.

(** *** Reading the context *)

Lemma get_context_state self sid : (get_context self sid).2 = self.
Proof. unfold get_context. by destruct (conversation_history self !! sid). Qed.

(** C10: [get_context] leaves the manager as it found it, for a known and
    for an unknown session alike; the entry of the session is what it was,
    a second call returns what the first returned, and for a session never
    seen no entry appears and a later call still returns the empty string. *)
Theorem get_context_pure_read self sid :
  (get_context self sid).2 = self /\
  conversation_history (get_context self sid).2 !! sid =
    conversation_history self !! sid /\
  (get_context (get_context self sid).2 sid).1 = (get_context self sid).1 /\
  (conversation_history self !! sid = None ->
   conversation_history (get_context self sid).2 !! sid = None /\
   (get_context (get_context self sid).2 sid).1 = "").
Proof.
  rewrite get_context_state. split; [done |]. split; [done |]. split; [done |].
  intros E. split; [done |]. by apply get_context_unknown.
Qed.

End MemoryFacts.

(** ** Web search *)

Section SearchFacts.
Import WebSearch.
Implicit Types (w : Ext.World) (self : t) (q : string).

Lemma collect_length src acc items rs :
  collect src acc items = Py.Returned rs -> length rs = length acc + length items.
Proof.
  revert acc. induction items as [| [t l s |] items IH]; intros acc H; simpl in *.
  - injection H as <-. lia.
  - apply IH in H. rewrite length_app in H. simpl in H. lia.
  - discriminate.
Qed.

Lemma collect_not_exited src acc items c : collect src acc items ≠ Py.Exited c.
Proof.
  revert acc. induction items as [| [t l s |] items IH]; intros acc; simpl; try done.
Qed.

(** What [_search_serpapi] does, by the answer of the backend: the results
    built from the raw items, one for one, or, when the call or the loop
    raises, a logged message and no result. *)
Lemma _search_serpapi_cases w q :
  let p := serpapi_request w q in
  (exists items rs,
      Ext.serpapi_search w p = Ext.Ok items /\
      collect "SerpAPI" [] (default [] items) = Py.Returned rs /\
      _search_serpapi w q = ([Ext.SerpAPISearch p], Py.Returned rs)) \/
  (exists msg,
      _search_serpapi w q =
      ([Ext.SerpAPISearch p; Ext.Print ("SerpAPI search error: " +:+ msg)],
       Py.Returned [])).
Proof.
  cbv zeta. unfold _search_serpapi. fold (serpapi_request w q).
  unfold Ext.call, Ext.lift. simpl.
  destruct (Ext.serpapi_search w (serpapi_request w q)) as [items | msg] eqn:E; simpl.
  - destruct (collect "SerpAPI" [] (default [] items)) as [rs | msg | c] eqn:C; simpl.
    + left. by exists items, rs.
    + right. by exists msg.
    + by apply collect_not_exited in C.
  - right. by exists msg.
Qed.

Lemma _search_google_pse_cases w q :
  let p := pse_request w q in
  (exists items rs,
      Ext.pse_execute w p = Ext.Ok items /\
      collect "Google PSE" [] (default [] items) = Py.Returned rs /\
      _search_google_pse w q = ([Ext.PSEExecute p], Py.Returned rs)) \/
  (exists msg,
      _search_google_pse w q =
      ([Ext.PSEExecute p; Ext.Print ("Google PSE search error: " +:+ msg)],
       Py.Returned [])).
Proof.
  cbv zeta. unfold _search_google_pse. fold (pse_request w q).
  unfold Ext.call, Ext.lift. simpl.
  destruct (Ext.pse_execute w (pse_request w q)) as [items | msg] eqn:E; simpl.
  - destruct (collect "Google PSE" [] (default [] items)) as [rs | msg | c] eqn:C; simpl.
    + left. by exists items, rs.
    + right. by exists msg.
    + by apply collect_not_exited in C.
  - right. by exists msg.
Qed.

(** Neither backend function raises. *)
Lemma _search_serpapi_returns w q :
  exists rs, Ext.result (_search_serpapi w q) = Py.Returned rs.
Proof.
  destruct (_search_serpapi_cases w q) as [(items & rs & _ & _ & ->) | (msg & ->)];
    eauto.
Qed.

Lemma _search_google_pse_returns w q :
  exists rs, Ext.result (_search_google_pse w q) = Py.Returned rs.
Proof.
  destruct (_search_google_pse_cases w q) as [(items & rs & _ & _ & ->) | (msg & ->)];
    eauto.
Qed.

Lemma _search_serpapi_bound w q rs :
  honours_num w -> Ext.result (_search_serpapi w q) = Py.Returned rs ->
  length rs <= 5.
Proof.
  intros [Hs _] H.
  destruct (_search_serpapi_cases w q) as [(items & rs' & E & C & R) | (msg & R)];
    rewrite R in H; injection H as <-; [| simpl; lia].
  apply collect_length in C. rewrite C. simpl.
  destruct items as [items |]; simpl; [| lia].
  apply Hs in E. simpl in E. lia.
Qed.

Lemma _search_google_pse_bound w q rs :
  honours_num w -> Ext.result (_search_google_pse w q) = Py.Returned rs ->
  length rs <= 5.
Proof.
  intros [_ Hp] H.
  destruct (_search_google_pse_cases w q) as [(items & rs' & E & C & R) | (msg & R)];
    rewrite R in H; injection H as <-; [| simpl; lia].
  apply collect_length in C. rewrite C. simpl.
  destruct items as [items |]; simpl; [| lia].
  apply Hp in E. simpl in E. lia.
Qed.

(** Whatever the engine, [search] returns, and what it returns is empty or
    is what one of the two backend functions returned. *)
Lemma search_result_cases self w q engine :
  exists rs,
    Ext.result (search self w q engine) = Py.Returned rs /\
    (rs = [] \/ Ext.result (_search_serpapi w q) = Py.Returned rs
     \/ Ext.result (_search_google_pse w q) = Py.Returned rs).
Proof.
  destruct (_search_serpapi_returns w q) as [rs1 H1].
  destruct (_search_google_pse_returns w q) as [rs2 H2].
  destruct (_search_serpapi w q) as [ev1 o1] eqn:E1.
  destruct (_search_google_pse w q) as [ev2 o2] eqn:E2.
  simpl in H1, H2. subst o1 o2.
  unfold search. rewrite E1, E2.
  destruct (String.eqb engine "auto").
  - destruct (serpapi_enabled self), (google_pse_enabled self);
      destruct rs1 as [| r1 rs1]; destruct rs2 as [| r2 rs2]; simpl; eauto.
  - destruct (String.eqb engine "serpapi"), (serpapi_enabled self),
      (String.eqb engine "google_pse"), (google_pse_enabled self); simpl; eauto.
Qed.

(** C6, as the code has it: the client asks each backend for [num = 5]
    results and builds one result per raw item it gets back, without
    truncating; so [search] returns, and returns at most five results,
    whenever the backends return no more than the [num] asked for. *)
Theorem search_at_most_five_if_backends_honour_num self w q engine :
  honours_num w ->
  Ext.sp_num (serpapi_request w q) = 5%Z /\
  Ext.pp_num (pse_request w q) = 5%Z /\
  exists rs,
    Ext.result (search self w q engine) = Py.Returned rs /\ length rs <= 5.
Proof.
  intros Hw. split; [done |]. split; [done |].
  destruct (search_result_cases self w q engine) as (rs & R & [H | [H | H]]);
    exists rs; (split; [done |]).
  - subst rs. simpl. lia.
  - by eapply _search_serpapi_bound.
  - by eapply _search_google_pse_bound.
Qed.

Lemma capped_honours_num items num got :
  Examples.capped items num = Ext.Ok (Some got) -> (Z.of_nat (length got) <= num)%Z.
Proof.
  unfold Examples.capped. destruct (Z.leb_spec 0 num) as [Hle | Hlt]; [| done].
  intros [= <-]. rewrite length_take. lia.
Qed.

Lemma search_at_most_five_witness :
  honours_num Examples.two_results /\
  Ext.sp_num (serpapi_request Examples.two_results "rocq") = 5%Z /\
  Ext.pp_num (pse_request Examples.two_results "rocq") = 5%Z /\
  exists rs,
    Ext.result (search (init Examples.two_results) Examples.two_results "rocq" "auto")
    = Py.Returned rs /\ length rs <= 5.
Proof.
  assert (H : honours_num Examples.two_results)
    by (split; intros p items; apply capped_honours_num).
  split; [exact H |].
  exact (search_at_most_five_if_backends_honour_num
           (init Examples.two_results) Examples.two_results "rocq" "auto" H).
Defined.

(** C6, as stated, fails: a backend that answers with six raw results makes
    [search] return six results. *)
Lemma search_returns_six_results :
  exists rs,
    Ext.result (search (init Examples.six_results) Examples.six_results "rocq" "auto")
    = Py.Returned rs /\ length rs = 6 /\ ~ length rs <= 5.
Proof. eexists. split; [reflexivity |]. simpl. split; [done | lia]. Qed.

(** C7: in ["auto"] mode [search] never raises.  Each backend function
    makes its one call, to its own backend with the parameters built from
    the query, and returns the results built from the answer; when the call
    or the loop over the answer raises, the error is printed and counts as
    no result.  [search] asks SerpAPI first, when it is configured, and
    returns its results when there are some, without calling Google PSE;
    when SerpAPI yields nothing, or is not configured, Google PSE is called
    next, when it is configured, and its results are returned; when both
    yield nothing, or none is configured, the result is the empty list. *)
Theorem search_auto_fallback self w q :
  (exists rs, Ext.result (search self w q "auto") = Py.Returned rs) /\
  (forall items rs,
      Ext.serpapi_search w (serpapi_request w q) = Ext.Ok items ->
      collect "SerpAPI" [] (default [] items) = Py.Returned rs ->
      _search_serpapi w q =
      ([Ext.SerpAPISearch (serpapi_request w q)], Py.Returned rs)) /\
  (forall items msg,
      Ext.serpapi_search w (serpapi_request w q) = Ext.Ok items ->
      collect "SerpAPI" [] (default [] items) = Py.Raised msg ->
      _search_serpapi w q =
      ([Ext.SerpAPISearch (serpapi_request w q);
        Ext.Print ("SerpAPI search error: " +:+ msg)], Py.Returned [])) /\
  (forall msg,
      Ext.serpapi_search w (serpapi_request w q) = Ext.Fail msg ->
      _search_serpapi w q =
      ([Ext.SerpAPISearch (serpapi_request w q);
        Ext.Print ("SerpAPI search error: " +:+ msg)], Py.Returned [])) /\
  (forall items rs,
      Ext.pse_execute w (pse_request w q) = Ext.Ok items ->
      collect "Google PSE" [] (default [] items) = Py.Returned rs ->
      _search_google_pse w q =
      ([Ext.PSEExecute (pse_request w q)], Py.Returned rs)) /\
  (forall items msg,
      Ext.pse_execute w (pse_request w q) = Ext.Ok items ->
      collect "Google PSE" [] (default [] items) = Py.Raised msg ->
      _search_google_pse w q =
      ([Ext.PSEExecute (pse_request w q);
        Ext.Print ("Google PSE search error: " +:+ msg)], Py.Returned [])) /\
  (forall msg,
      Ext.pse_execute w (pse_request w q) = Ext.Fail msg ->
      _search_google_pse w q =
      ([Ext.PSEExecute (pse_request w q);
        Ext.Print ("Google PSE search error: " +:+ msg)], Py.Returned [])) /\
  (serpapi_enabled self = true ->
   forall ev rs,
     _search_serpapi w q = (ev, Py.Returned rs) -> rs <> [] ->
     search self w q "auto" = (ev, Py.Returned rs)) /\
  (serpapi_enabled self = true -> google_pse_enabled self = true ->
   forall ev1 ev2 rs,
     _search_serpapi w q = (ev1, Py.Returned []) ->
     _search_google_pse w q = (ev2, Py.Returned rs) ->
     search self w q "auto" = (ev1 ++ ev2, Py.Returned rs)) /\
  (serpapi_enabled self = true -> google_pse_enabled self = false ->
   forall ev1,
     _search_serpapi w q = (ev1, Py.Returned []) ->
     search self w q "auto" = (ev1, Py.Returned [])) /\
  (serpapi_enabled self = false -> google_pse_enabled self = true ->
   forall ev2 rs,
     _search_google_pse w q = (ev2, Py.Returned rs) ->
     search self w q "auto" = (ev2, Py.Returned rs)) /\
  (serpapi_enabled self = false -> google_pse_enabled self = false ->
   search self w q "auto" = ([], Py.Returned [])).
Proof.
  split.
  { destruct (search_result_cases self w q "auto") as (rs & R & _). eauto. }
  repeat split.
  - intros items rs E C. unfold _search_serpapi. fold (serpapi_request w q).
    unfold Ext.call, Ext.lift. rewrite E. simpl. by rewrite C.
  - intros items msg E C. unfold _search_serpapi. fold (serpapi_request w q).
    unfold Ext.call, Ext.lift. rewrite E. simpl. by rewrite C.
  - intros msg E. unfold _search_serpapi. fold (serpapi_request w q).
    unfold Ext.call. simpl. by rewrite E.
  - intros items rs E C. unfold _search_google_pse. fold (pse_request w q).
    unfold Ext.call, Ext.lift. rewrite E. simpl. by rewrite C.
  - intros items msg E C. unfold _search_google_pse. fold (pse_request w q).
    unfold Ext.call, Ext.lift. rewrite E. simpl. by rewrite C.
  - intros msg E. unfold _search_google_pse. fold (pse_request w q).
    unfold Ext.call. simpl. by rewrite E.
  - intros Hs ev rs E Hne. unfold search. simpl String.eqb. cbv iota.
    rewrite Hs, E. destruct rs as [| r rs]; [done |]. simpl.
    by rewrite app_nil_r.
  - intros Hs Hp ev1 ev2 rs E1 E2. unfold search. simpl String.eqb. cbv iota.
    rewrite Hs, Hp, E1, E2. destruct rs as [| r rs]; simpl;
      by rewrite app_nil_r.
  - intros Hs Hp ev1 E1. unfold search. simpl String.eqb. cbv iota.
    rewrite Hs, Hp, E1. simpl. by rewrite app_nil_r.
  - intros Hs Hp ev2 rs E2. unfold search. simpl String.eqb. cbv iota.
    rewrite Hs, Hp, E2. destruct rs as [| r rs]; simpl;
      by rewrite app_nil_r.
  - intros Hs Hp. unfold search. simpl String.eqb. cbv iota.
    by rewrite Hs, Hp.
Qed.

(** The fallback at work: SerpAPI is down, the failure is logged, Google
    PSE is asked next and its result is returned. *)
Example search_falls_back_when_serpapi_is_down :
  let w := Examples.serpapi_down in
  search (init w) w "rocq" "auto" =
  ([Ext.SerpAPISearch (serpapi_request w "rocq");
    Ext.Print "SerpAPI search error: Connection refused";
    Ext.PSEExecute (pse_request w "rocq")],
   Py.Returned
     [{| title := Some "P"; link := Some "https://example.org/P";
         snippet := Some "sp"; source := "Google PSE" |}]).
Proof. reflexivity. Qed.

End SearchFacts.

(** ** Providers *)

Section ProviderFacts.
Implicit Types (w : Ext.World) (k : option string).

Lemma truthy_spec k : Py.truthy k = true <-> exists s, k = Some s /\ s ≠ "".
Proof.
  destruct k as [s |]; simpl.
  - rewrite negb_true_iff. split.
    + intros H. exists s. split; [done |]. intros ->. by rewrite String.eqb_refl in H.
    + intros (s' & [= <-] & Hne). by apply String.eqb_neq.
  - split; [done | by intros (s & ? & _)].
Qed.

Lemma key_valid_spec k :
  ResearchAssistant.key_valid k = true <->
  exists s, k = Some s /\ s ≠ "" /\ s ≠ "your_api_key_here".
Proof.
  unfold ResearchAssistant.key_valid. rewrite andb_true_iff, truthy_spec.
  rewrite negb_true_iff, bool_decide_eq_false. split.
  - intros [(s & -> & Hne) Hp]. exists s. repeat split; [done |]. by intros ->.
  - intros (s & -> & Hne & Hp). split; [by exists s |]. by intros [= ->].
Qed.

Lemma AIClient_init_cases w :
  exists ev, AIClient.init w =
             (ev, Py.Returned {| AIClient.providers := AIClient.provider_table w |}).
Proof.
  unfold AIClient.init, AIClient._initialize_providers. simpl.
  destruct (Py.truthy (Ext.getenv w "GEMINI_API_KEY")); simpl; eauto.
Qed.

Lemma get_available_providers_spec (self : AIClient.t) n :
  n ∈ AIClient.get_available_providers self <->
  exists cfg, (n, cfg) ∈ AIClient.providers self /\ AIClient.enabled cfg = true.
Proof.
  unfold AIClient.get_available_providers. rewrite list_elem_of_fmap. split.
  - intros ([n' cfg] & -> & Hin). apply list_elem_of_filter in Hin as [He Hin].
    by exists cfg.
  - intros (cfg & Hin & He). exists (n, cfg). split; [done |].
    by apply list_elem_of_filter.
Qed.

Lemma _check_available_providers_app acc providers :
  foldl (fun available (pc : string * ResearchAssistant.ProviderConfig) =>
           if ResearchAssistant.key_valid (ResearchAssistant.api_key pc.2)
           then available ++ [pc.1] else available) acc providers =
  acc ++ map fst (filter (fun pc => ResearchAssistant.key_valid
                                      (ResearchAssistant.api_key pc.2) = true)
                         providers).
Proof.
  revert acc. induction providers as [| pc providers IH]; intros acc; simpl.
  - by rewrite app_nil_r.
  - rewrite IH. destruct (ResearchAssistant.key_valid _) eqn:E.
    + rewrite filter_cons_True by done. simpl. by rewrite <- app_assoc.
    + rewrite filter_cons_False; [done |]. by rewrite E.
Qed.

Lemma _check_available_providers_spec providers n :
  n ∈ ResearchAssistant._check_available_providers providers <->
  exists cfg, (n, cfg) ∈ providers /\
              ResearchAssistant.key_valid (ResearchAssistant.api_key cfg) = true.
Proof.
  unfold ResearchAssistant._check_available_providers.
  rewrite _check_available_providers_app. simpl. rewrite list_elem_of_fmap. split.
  - intros ([n' cfg] & -> & Hin). apply list_elem_of_filter in Hin as [He Hin].
    by exists cfg.
  - intros (cfg & Hin & He). exists (n, cfg). split; [done |].
    by apply list_elem_of_filter.
Qed.

(** *** Dispatch to a provider that is not available *)

(** C4: for a provider id that is not among the available providers,
    [query] returns exactly ["Provider '<id>' is not available."] and does
    nothing else: no event, so no network call, is logged. *)
Theorem query_unavailable_provider (self : AIClient.t) w provider q context :
  provider ∉ AIClient.get_available_providers self ->
  Ext.result (AIClient.query self w provider q context) =
    Py.Returned ("Provider '" +:+ provider +:+ "' is not available.") /\
  Ext.events (AIClient.query self w provider q context) = [].
Proof.
  intros Hnot. unfold AIClient.query.
  rewrite (bool_decide_eq_false_2 _ Hnot). simpl. done.
Qed.

Lemma query_unavailable_provider_witness :
  ("openai" ∉ AIClient.get_available_providers Examples.deepseek_client) /\
  Ext.result (AIClient.query Examples.deepseek_client Examples.two_results
                "openai" "What is Rocq?" "") =
    Py.Returned "Provider 'openai' is not available." /\
  Ext.events (AIClient.query Examples.deepseek_client Examples.two_results
                "openai" "What is Rocq?" "") = [].
Proof.
  assert (H : "openai" ∉ AIClient.get_available_providers Examples.deepseek_client)
    by (apply (bool_decide_unpack _); vm_compute; exact I).
  split; [exact H |].
  exact (query_unavailable_provider Examples.deepseek_client Examples.two_results
           "openai" "What is Rocq?" "" H).
Defined.

(** The stand-alone assistant answers with a longer message, which lists
    the providers that are available. *)
Lemma research_unavailable_provider (self : ResearchAssistant.t) w q provider :
  let p := (if Py.truthy provider then Py.fmt provider
            else ResearchAssistant.default_provider self) in
  p ∉ ResearchAssistant.available_providers self ->
  ResearchAssistant.research self w q provider =
  ([], Py.Returned
         ("Provider '" +:+ p +:+ "' is not available. Available providers: "
          +:+ Py.join ", " (ResearchAssistant.available_providers self))).
Proof.
  cbv zeta. intros Hnot. unfold ResearchAssistant.research.
  by rewrite bool_decide_eq_false_2 by done.
Qed.

(** *** Which providers are enabled *)

(** C9, as the code has it: in the client behind the web and terminal
    front ends a provider is enabled exactly when its key is set and not
    empty (the placeholder is not looked at), while the stand-alone
    assistant also rejects the placeholder ["your_api_key_here"]; in both,
    the available providers are exactly the enabled ones. *)
Theorem enabled_iff_credential_set w :
  (exists c,
      Ext.result (AIClient.init w) = Py.Returned c /\
      (forall n cfg, (n, cfg) ∈ AIClient.providers c ->
         (AIClient.enabled cfg = true <->
          exists s, AIClient.api_key cfg = Some s /\ s ≠ "")) /\
      (forall n, n ∈ AIClient.get_available_providers c <->
         exists cfg, (n, cfg) ∈ AIClient.providers c /\ AIClient.enabled cfg = true)) /\
  (forall n,
      n ∈ ResearchAssistant._check_available_providers
            (ResearchAssistant.provider_table w) <->
      exists cfg s,
        (n, cfg) ∈ ResearchAssistant.provider_table w /\
        ResearchAssistant.api_key cfg = Some s /\ s ≠ "" /\ s ≠ "your_api_key_here").
Proof.
  split.
  - destruct (AIClient_init_cases w) as [ev E]. eexists. rewrite E.
    split; [reflexivity |]. split.
    + intros n cfg Hin. simpl in Hin. unfold AIClient.provider_table in Hin.
      rewrite <- truthy_spec.
      repeat (apply elem_of_cons in Hin as [[= -> ->] | Hin]; [by simpl |]).
      by apply elem_of_nil in Hin.
    + intros n. apply get_available_providers_spec.
  - intros n. rewrite _check_available_providers_spec. split.
    + intros (cfg & Hin & Hk). apply key_valid_spec in Hk as (s & ? & ? & ?).
      by exists cfg, s.
    + intros (cfg & s & Hin & Hk & ? & ?). exists cfg. split; [done |].
      apply key_valid_spec. by exists s.
Qed.

(** C9, as stated, fails: with the placeholder as its key, "deepseek" is
    enabled in the client and is listed as available; the stand-alone
    assistant does not list it. *)
Lemma placeholder_key_is_enabled :
  exists c cfg,
    Ext.result (AIClient.init Examples.placeholder_key) = Py.Returned c /\
    AIClient.getitem (AIClient.providers c) "deepseek" = Py.Returned cfg /\
    AIClient.api_key cfg = Some "your_api_key_here" /\
    AIClient.enabled cfg = true /\
    AIClient.get_available_providers c = ["deepseek"] /\
    ResearchAssistant._check_available_providers
      (ResearchAssistant.provider_table Examples.placeholder_key) = [].
Proof. do 2 eexists. repeat split; reflexivity. Qed.

(** *** Start-up without any provider *)

(** C8, as the code has it: with no provider available the stand-alone
    assistant raises [ValueError] and the terminal assistant prints a
    diagnostic and exits with status 1; the client itself, and the web
    application built on it, always start, also with no provider. *)
Theorem startup_without_providers w default_provider use_web_search :
  (ResearchAssistant._check_available_providers
     (ResearchAssistant.provider_table w) = [] ->
   ResearchAssistant.init w default_provider =
   ([], Py.Raised "ValueError: No AI providers configured. Please check your API keys.")) /\
  (ResearchAssistant._check_available_providers
     (ResearchAssistant.provider_table w) ≠ [] ->
   exists a, ResearchAssistant.init w default_provider = ([], Py.Returned a)) /\
  (forall ev c,
      AIClient.init w = (ev, Py.Returned c) ->
      AIClient.get_available_providers c = [] ->
      Terminal.init w default_provider use_web_search =
      (ev ++ [Ext.Print "Error: No AI providers configured. Please check your API keys."],
       Py.Exited 1)) /\
  (exists ev c app,
      AIClient.init w = (ev, Py.Returned c) /\
      App.startup w = (ev, Py.Returned app) /\
      App.ai_client app = c).
Proof.
  split; [| split; [| split]].
  - intros E. unfold ResearchAssistant.init. by rewrite E.
  - intros Hne. unfold ResearchAssistant.init.
    destruct (ResearchAssistant._check_available_providers _); [done |].
    simpl. eauto.
  - intros ev c E Hnone. unfold Terminal.init. rewrite E. simpl.
    rewrite Hnone. rewrite bool_decide_eq_false_2 by apply not_elem_of_nil.
    done.
  - destruct (AIClient_init_cases w) as [ev E]. do 3 eexists.
    split; [exact E |]. unfold App.startup. rewrite E. simpl.
    by rewrite app_nil_r.
Qed.

(** C8, as stated, fails: in a world without any key the client and the
    web application start, with an empty provider set; a request is then
    answered with the not-available message for the default "deepseek". *)
Lemma web_app_starts_without_providers :
  exists app,
    App.startup Examples.no_keys = ([], Py.Returned app) /\
    AIClient.get_available_providers (App.ai_client app) = [] /\
    Ext.result
      (AIClient.query (App.ai_client app) Examples.no_keys "deepseek" "hello" "") =
    Py.Returned "Provider 'deepseek' is not available.".
Proof. eexists. repeat split; reflexivity. Qed.

End ProviderFacts.

(** ** The query pipeline *)

Section PipelineFacts.
Import App.
Implicit Types (app : App.t) (w : Ext.World) (data : request).

(** C3: in a request with web search asked for and available, the string
    handed to [AIClient.query] is the user's query itself when the search
    returns nothing, and otherwise the query followed by a blank line, the
    line "Here are some web search results for context:" and the results,
    each as "Source: <title>" and "Content: <snippet>" on two lines, joined
    by newlines; and that same string is what [add_exchange] records as
    the query of the exchange. *)
Theorem api_research_dispatches_augmented_query app w data ev results :
  rq_web_search data = Some true ->
  WebSearch.is_available (web_search app) = true ->
  let query := default "" (rq_query data) in
  let sid := default (Ext.uuid4 w) (rq_session_id data) in
  let provider :=
    default (match AIClient.get_available_providers (ai_client app) with
             | p :: _ => p
             | [] => "deepseek"
             end) (rq_provider data) in
  let context := (MemoryManager.get_context (memory_manager app) sid).1 in
  WebSearch.search (web_search app) w query "auto" = (ev, Py.Returned results) ->
  let dispatched :=
    match results with
    | [] => query
    | _ :: _ =>
        query +:+ Py.nl +:+ Py.nl
        +:+ "Here are some web search results for context:" +:+ Py.nl
        +:+ Py.join Py.nl
              (map (fun r => "Source: " +:+ Py.fmt (WebSearch.title r) +:+ Py.nl
                             +:+ "Content: " +:+ Py.fmt (WebSearch.snippet r))
                   results)
    end in
  api_research app w data =
  (let! _ := (ev, Py.Returned tt) in
   let! answer := AIClient.query (ai_client app) w provider dispatched context in
   Ext.ret ({| response := answer; search_results := results; session_id := sid |},
            {| ai_client := ai_client app;
               web_search := web_search app;
               memory_manager :=
                 MemoryManager.add_exchange (memory_manager app) sid dispatched answer |})).
Proof.
  intros Hweb Havail query sid provider context Hsearch dispatched.
  unfold api_research. fold query sid provider.
  pose proof (get_context_state (memory_manager app) sid) as Hst.
  destruct (MemoryManager.get_context (memory_manager app) sid) as [ctx mm] eqn:Hctx.
  simpl in Hst. subst mm. subst context. simpl fst.
  rewrite Hweb, Havail. simpl default. simpl andb. cbv iota.
  rewrite Hsearch. subst dispatched.
  destruct results as [| r results]; simpl;
    destruct (AIClient.query _ _ _ _ _) as [evq [answer | msg | c]]; simpl;
    by rewrite ?app_nil_r.
Qed.

Lemma api_research_dispatches_augmented_query_witness :
  let dispatched :=
    "What is Rocq?" +:+ Py.nl +:+ Py.nl
    +:+ "Here are some web search results for context:" +:+ Py.nl
    +:+ "Source: A" +:+ Py.nl +:+ "Content: sa" +:+ Py.nl
    +:+ "Source: B" +:+ Py.nl +:+ "Content: sb" in
  exists evs reply app',
    api_research Examples.web_app Examples.two_results Examples.search_request
    = (evs, Py.Returned (reply, app')) /\
    evs = [Ext.SerpAPISearch (WebSearch.serpapi_request Examples.two_results "What is Rocq?");
           Ext.LLMCall
             (Ext.HttpPost (Some "https://api.deepseek.com/v1/chat/completions")
                [("Authorization", Some "Bearer ds-key");
                 ("Content-Type", Some "application/json")]
                "deepseek-chat" None
                [("system", AIClient.preamble); ("user", dispatched)]
                2000 (Some 30%Z))] /\
    response reply = "answer" /\
    MemoryManager.history_of (memory_manager app') "s1" = [(dispatched, "answer")].
Proof.
  cbv zeta. do 3 eexists.
  rewrite (api_research_dispatches_augmented_query
             Examples.web_app Examples.two_results Examples.search_request
             [Ext.SerpAPISearch
                (WebSearch.serpapi_request Examples.two_results "What is Rocq?")]
             [ {| WebSearch.title := Some "A";
                  WebSearch.link := Some "https://example.org/A";
                  WebSearch.snippet := Some "sa"; WebSearch.source := "SerpAPI" |};
               {| WebSearch.title := Some "B";
                  WebSearch.link := Some "https://example.org/B";
                  WebSearch.snippet := Some "sb"; WebSearch.source := "SerpAPI" |} ]
             eq_refl eq_refl eq_refl).
  repeat split; reflexivity.
Defined.

End PipelineFacts.

(** * Further properties of the code *)

(** ** Strings and joins *)

Lemma string_app_assoc (a b c : string) : (a +:+ b) +:+ c = a +:+ (b +:+ c).
Proof.
  induction a as [| ch a IH]; [done |].
  change (String ch ((a +:+ b) +:+ c) = String ch (a +:+ (b +:+ c))).
  by rewrite IH.
Qed.

Lemma string_app_nil_r (a : string) : a +:+ "" = a.
Proof.
  induction a as [| ch a IH]; [done |].
  change (String ch (a +:+ "") = String ch a). by rewrite IH.
Qed.

Lemma join_snoc sep (l : list string) (x : string) :
  l ≠ [] -> Py.join sep (l ++ [x]) = Py.join sep l +:+ sep +:+ x.
Proof.
  induction l as [| y l IH]; [done |]. intros _.
  destruct l as [| z l]; [done |].
  change (Py.join sep ((y :: z :: l) ++ [x]))
    with (y +:+ sep +:+ Py.join sep ((z :: l) ++ [x])).
  rewrite IH by done.
  change (Py.join sep (y :: z :: l)) with (y +:+ sep +:+ Py.join sep (z :: l)).
  by rewrite !string_app_assoc.
Qed.

(** ** Session memory, continued *)

Section MemoryMore.
Import MemoryManager.
Implicit Types (self : t) (sid : string) (h es : list Exchange) (N : Z).

(** X1: [clear_session] removes the history of its session and nothing
    else: the context of the session is empty afterwards, every other
    session keeps its entry, clearing a session that is not known changes
    nothing, and clearing twice is clearing once. *)
Theorem clear_session_forgets_one_session self sid :
  (get_context (clear_session self sid) sid).1 = "" /\
  conversation_history (clear_session self sid) !! sid = None /\
  (forall sid', sid ≠ sid' ->
     conversation_history (clear_session self sid) !! sid' =
     conversation_history self !! sid') /\
  (conversation_history self !! sid = None -> clear_session self sid = self) /\
  clear_session (clear_session self sid) sid = clear_session self sid.
Proof.
  split; [apply get_context_unknown, clear_session_lookup |].
  split; [apply clear_session_lookup |].
  split; [intros sid' Hne; by apply clear_session_lookup_ne |].
  split.
  - intros E. unfold clear_session. by rewrite E.
  - unfold clear_session at 1. by rewrite clear_session_lookup.
Qed.

(** X2: for a positive maximum, the exchange just added is the last entry
    of the history and the last line pair of the context; what stands
    before it is the tail end of the history as it was. *)
Theorem add_exchange_get_context_round_trip self sid q r :
  (0 < max_history self)%Z ->
  exists older,
    older `suffix_of` history_of self sid /\
    history_of (add_exchange self sid q r) sid = older ++ [(q, r)] /\
    (get_context (add_exchange self sid q r) sid).1 =
      match older with
      | [] => "Q: " +:+ q +:+ Py.nl +:+ "A: " +:+ r
      | _ :: _ => Py.join Py.nl (map render older) +:+ Py.nl
                  +:+ "Q: " +:+ q +:+ Py.nl +:+ "A: " +:+ r
      end.
Proof.
  intros Hpos.
  pose proof (add_exchange_lookup_pos self sid q r Hpos) as E.
  set (h0 := history_of self sid) in *.
  set (k := length (h0 ++ [(q, r)]) - Z.to_nat (max_history self)) in *.
  assert (Hk : k <= length h0) by (subst k; rewrite length_app; simpl; lia).
  rewrite drop_app_le in E by done.
  exists (drop k h0). split; [apply suffix_drop |]. split.
  - unfold history_of at 1. by rewrite E.
  - rewrite (get_context_known _ _ _ E). rewrite add_exchange_max.
    rewrite slice_from_short; [| | done].
    + rewrite map_app. simpl map.
      destruct (drop k h0) as [| e older] eqn:Ed; [done |].
      rewrite join_snoc by done. done.
    + rewrite length_app, length_drop. simpl. subst k.
      rewrite length_app. simpl. lia.
Qed.

Lemma add_exchange_get_context_round_trip_witness :
  exists older,
    older `suffix_of` history_of (add_exchange init_default "s1" "q1" "r1") "s1" /\
    history_of
      (add_exchange (add_exchange init_default "s1" "q1" "r1") "s1"
         "What is photosynthesis?" "Plants convert light...") "s1"
    = older ++ [("What is photosynthesis?", "Plants convert light...")] /\
    (get_context
       (add_exchange (add_exchange init_default "s1" "q1" "r1") "s1"
          "What is photosynthesis?" "Plants convert light...") "s1").1 =
      match older with
      | [] => "Q: " +:+ "What is photosynthesis?" +:+ Py.nl
              +:+ "A: " +:+ "Plants convert light..."
      | _ :: _ => Py.join Py.nl (map render older) +:+ Py.nl
                  +:+ "Q: " +:+ "What is photosynthesis?" +:+ Py.nl
                  +:+ "A: " +:+ "Plants convert light..."
      end.
Proof.
  apply (add_exchange_get_context_round_trip
           (add_exchange init_default "s1" "q1" "r1") "s1"
           "What is photosynthesis?" "Plants convert light...").
  reflexivity.
Defined.

(** X3: below the maximum nothing is evicted: an append to a history
    shorter than the maximum leaves the old exchanges in place and adds
    the new one at the end. *)
Theorem add_exchange_below_max_keeps_all self sid q r :
  (Z.of_nat (length (history_of self sid)) < max_history self)%Z ->
  history_of (add_exchange self sid q r) sid = history_of self sid ++ [(q, r)].
Proof.
  intros Hlt. unfold history_of at 1. rewrite add_exchange_lookup. cbv zeta.
  simpl default.
  destruct (Z.ltb_spec (max_history self)
              (Z.of_nat (length (history_of self sid ++ [(q, r)])))) as [H | H];
    [| done].
  rewrite length_app in H. simpl in H. lia.
Qed.

Lemma add_exchange_below_max_keeps_all_witness :
  history_of (add_exchange (add_exchange init_default "s1" "q1" "r1") "s1" "q2" "r2") "s1"
  = history_of (add_exchange init_default "s1" "q1" "r1") "s1" ++ [("q2", "r2")].
Proof.
  apply (add_exchange_below_max_keeps_all
           (add_exchange init_default "s1" "q1" "r1") "s1" "q2" "r2").
  vm_compute. reflexivity.
Defined.

Lemma step_all_empty self o :
  (max_history self < 0)%Z -> all_empty self -> all_empty (step self o).
Proof.
  intros Hneg He sid' h'. destruct o as [s q r | s]; unfold step.
  - destruct (decide (s = sid')) as [<- | Hne].
    + rewrite add_exchange_lookup. cbv zeta. intros [= <-].
      assert (Hh : history_of self s = []).
      { unfold history_of. destruct (conversation_history self !! s) eqn:E; [| done].
        simpl. by eapply He. }
      rewrite Hh. simpl.
      unfold Py.slice_from. simpl length.
      destruct (Z.ltb_spec (max_history self) (Z.of_nat 1)) as [_ | H]; [| lia].
      destruct (Z.ltb_spec (- max_history self) 0) as [H | _]; [lia |].
      replace (Z.to_nat (Z.min (- max_history self) (Z.of_nat 1))) with 1 by lia.
      done.
    + rewrite add_exchange_lookup_ne by done. apply He.
  - destruct (decide (s = sid')) as [<- | Hne].
    + by rewrite clear_session_lookup.
    + rewrite clear_session_lookup_ne by done. apply He.
Qed.

(** X4: a manager built with a negative maximum remembers nothing: after
    any calls every stored history is empty, since each append is followed
    by a trim that cuts from the front, and the context of every session
    is the empty string. *)
Theorem negative_max_remembers_nothing N ops sid :
  (N < 0)%Z ->
  history_of (run (init N) ops) sid = [] /\
  (get_context (run (init N) ops) sid).1 = "".
Proof.
  intros Hneg.
  assert (He : all_empty (run (init N) ops)).
  { assert (G : forall self, max_history self = N -> all_empty self ->
                             all_empty (run self ops)).
    { induction ops as [| o ops IH]; intros self Hm He; [done |].
      unfold run in *. simpl. apply IH.
      - by rewrite step_max.
      - apply step_all_empty; [lia | done]. }
    apply G; [done |]. intros s h. unfold init. simpl. by rewrite lookup_empty. }
  unfold history_of, get_context.
  destruct (conversation_history (run (init N) ops) !! sid) as [h |] eqn:E; [| done].
  apply He in E. subst h. split; [done |].
  unfold Py.slice_from. simpl. by rewrite drop_nil.
Qed.

Lemma negative_max_remembers_nothing_witness :
  history_of (run (init (-1)) [AddExchange "s1" "q1" "r1"; AddExchange "s1" "q2" "r2"]) "s1"
  = [] /\
  (get_context
     (run (init (-1)) [AddExchange "s1" "q1" "r1"; AddExchange "s1" "q2" "r2"]) "s1").1
  = "".
Proof.
  apply (negative_max_remembers_nothing (-1)
           [AddExchange "s1" "q1" "r1"; AddExchange "s1" "q2" "r2"] "s1").
  reflexivity.
Defined.

End MemoryMore.

(** ** Web search, continued *)

Section SearchMore.
Import WebSearch.
Implicit Types (w : Ext.World) (self : t) (q : string).

(** The raw items of an answer in which every item is a JSON object. *)
Local Abbreviation objects fields :=
  (map (fun f : option string * option string * option string =>
          Ext.RawObject f.1.1 f.1.2 f.2) fields).

(** The results the client builds from them. *)
Local Abbreviation results_of src fields :=
  (map (fun f : option string * option string * option string =>
          {| title := f.1.1; link := f.1.2; snippet := f.2; source := src |}) fields).

Lemma collect_objects src acc fields :
  collect src acc (objects fields) = Py.Returned (acc ++ results_of src fields).
Proof.
  revert acc. induction fields as [| [[t l] s] fields IH]; intros acc; simpl.
  - by rewrite app_nil_r.
  - rewrite IH. by rewrite <- app_assoc.
Qed.

Lemma collect_other src acc items :
  Ext.RawOther ∈ items -> exists msg, collect src acc items = Py.Raised msg.
Proof.
  revert acc. induction items as [| [t l s |] items IH]; intros acc Hin.
  - by apply elem_of_nil in Hin.
  - apply elem_of_cons in Hin as [? | Hin]; [done |]. simpl. by apply IH.
  - simpl. eauto.
Qed.

Lemma collect_source src acc items rs :
  collect src acc items = Py.Returned rs ->
  Forall (fun r => source r = src) acc -> Forall (fun r => source r = src) rs.
Proof.
  revert acc. induction items as [| [t l s |] items IH]; intros acc H Hacc; simpl in H.
  - by injection H as <-.
  - apply IH in H; [done |]. apply Forall_app. split; [done |]. by constructor.
  - done.
Qed.

(** X5: web search is available exactly when the SerpAPI key is set and
    not empty, or both the Google PSE id and the Google API key are. *)
Theorem is_available_iff_keys w :
  is_available (init w) = true <->
  (exists k, Ext.getenv w "SERPAPI_API_KEY" = Some k /\ k ≠ "") \/
  ((exists k, Ext.getenv w "GOOGLE_PSE_ID" = Some k /\ k ≠ "") /\
   (exists k, Ext.getenv w "GOOGLE_API_KEY" = Some k /\ k ≠ "")).
Proof.
  unfold is_available, init. simpl.
  by rewrite orb_true_iff, andb_true_iff, !truthy_spec.
Qed.

(** X6: [search] answers with the empty list and without any call or
    message when no backend is configured, when the engine name is none of
    "auto", "serpapi" and "google_pse", and when the engine named is not
    configured; a named engine never falls back to the other one. *)
Theorem search_without_backend_is_silent self w q :
  (is_available self = false ->
   forall engine, search self w q engine = ([], Py.Returned [])) /\
  (forall engine,
      engine ≠ "auto" -> engine ≠ "serpapi" -> engine ≠ "google_pse" ->
      search self w q engine = ([], Py.Returned [])) /\
  (serpapi_enabled self = false ->
   search self w q "serpapi" = ([], Py.Returned [])) /\
  (google_pse_enabled self = false ->
   search self w q "google_pse" = ([], Py.Returned [])) /\
  (serpapi_enabled self = true ->
   search self w q "serpapi" = _search_serpapi w q) /\
  (google_pse_enabled self = true ->
   search self w q "google_pse" = _search_google_pse w q).
Proof.
  split; [| split; [| split; [| split; [| split]]]].
  - unfold is_available. intros [Hs Hp]%orb_false_iff engine.
    unfold search. rewrite Hs, Hp, !andb_false_r.
    by destruct (String.eqb engine "auto").
  - intros engine H1 H2 H3. unfold search.
    apply String.eqb_neq in H1, H2, H3. by rewrite H1, H2, H3.
  - intros Hs. unfold search. by rewrite Hs.
  - intros Hp. unfold search. by rewrite Hp.
  - intros Hs. unfold search. by rewrite Hs.
  - intros Hp. unfold search. by rewrite Hp.
Qed.

(** X7: when SerpAPI is configured and answers with a non-empty list of
    JSON objects, [search] in "auto" mode makes that one call and returns
    one result per object, in the backend's order, with the title, link and
    snippet of the object and the source tag "SerpAPI"; a key that the
    object lacks gives a [None] field. *)
Theorem search_results_follow_backend self w q fields :
  serpapi_enabled self = true ->
  fields ≠ [] ->
  Ext.serpapi_search w (serpapi_request w q) = Ext.Ok (Some (objects fields)) ->
  search self w q "auto" =
  ([Ext.SerpAPISearch (serpapi_request w q)],
   Py.Returned (results_of "SerpAPI" fields)).
Proof.
  intros Hs Hne E. unfold search. simpl String.eqb. cbv iota. rewrite Hs.
  unfold _search_serpapi. fold (serpapi_request w q).
  unfold Ext.call, Ext.lift. rewrite E. simpl.
  rewrite collect_objects. simpl.
  destruct fields as [| f fields]; [done |]. done.
Qed.

Lemma search_results_follow_backend_witness :
  search (init Examples.six_results) Examples.six_results "rocq" "auto" =
  ([Ext.SerpAPISearch (serpapi_request Examples.six_results "rocq")],
   Py.Returned
     (results_of "SerpAPI"
        [ (Some "A", Some "https://example.org/A", Some "sa");
          (Some "B", Some "https://example.org/B", Some "sb");
          (Some "C", Some "https://example.org/C", Some "sc");
          (Some "D", Some "https://example.org/D", Some "sd");
          (Some "E", Some "https://example.org/E", Some "se");
          (Some "F", Some "https://example.org/F", Some "sf") ])).
Proof.
  apply (search_results_follow_backend (init Examples.six_results)
           Examples.six_results "rocq"
           [ (Some "A", Some "https://example.org/A", Some "sa");
             (Some "B", Some "https://example.org/B", Some "sb");
             (Some "C", Some "https://example.org/C", Some "sc");
             (Some "D", Some "https://example.org/D", Some "sd");
             (Some "E", Some "https://example.org/E", Some "se");
             (Some "F", Some "https://example.org/F", Some "sf") ]).
  - reflexivity.
  - discriminate.
  - reflexivity.
Defined.

(** X8: one raw item that is not a JSON object spoils the whole answer:
    the loop raises on it, the results built so far are dropped, the error
    is printed and the backend function returns the empty list. *)
Theorem malformed_item_drops_all_results w q items :
  Ext.RawOther ∈ items ->
  (Ext.serpapi_search w (serpapi_request w q) = Ext.Ok (Some items) ->
   exists msg,
     _search_serpapi w q =
     ([Ext.SerpAPISearch (serpapi_request w q);
       Ext.Print ("SerpAPI search error: " +:+ msg)], Py.Returned [])) /\
  (Ext.pse_execute w (pse_request w q) = Ext.Ok (Some items) ->
   exists msg,
     _search_google_pse w q =
     ([Ext.PSEExecute (pse_request w q);
       Ext.Print ("Google PSE search error: " +:+ msg)], Py.Returned [])).
Proof.
  intros Hin. split; intros E.
  - destruct (collect_other "SerpAPI" [] items Hin) as [msg C]. exists msg.
    unfold _search_serpapi. fold (serpapi_request w q).
    unfold Ext.call, Ext.lift. rewrite E. simpl. by rewrite C.
  - destruct (collect_other "Google PSE" [] items Hin) as [msg C]. exists msg.
    unfold _search_google_pse. fold (pse_request w q).
    unfold Ext.call, Ext.lift. rewrite E. simpl. by rewrite C.
Qed.

Lemma malformed_item_drops_all_results_witness :
  exists msg,
    _search_serpapi Examples.malformed_answers "rocq" =
    ([Ext.SerpAPISearch (serpapi_request Examples.malformed_answers "rocq");
      Ext.Print ("SerpAPI search error: " +:+ msg)], Py.Returned []).
Proof.
  apply (proj1 (malformed_item_drops_all_results Examples.malformed_answers "rocq"
                  [Examples.item "A" "sa"; Ext.RawOther; Examples.item "C" "sc"]
                  (list_elem_of_further _ _ _ (list_elem_of_here _ _)))).
  reflexivity.
Defined.

Lemma _search_serpapi_source w q rs :
  Ext.result (_search_serpapi w q) = Py.Returned rs ->
  Forall (fun r => source r = "SerpAPI") rs.
Proof.
  intros H.
  destruct (_search_serpapi_cases w q) as [(items & rs' & _ & C & R) | (msg & R)];
    rewrite R in H; injection H as <-; [| constructor].
  by eapply collect_source.
Qed.

Lemma _search_google_pse_source w q rs :
  Ext.result (_search_google_pse w q) = Py.Returned rs ->
  Forall (fun r => source r = "Google PSE") rs.
Proof.
  intros H.
  destruct (_search_google_pse_cases w q) as [(items & rs' & _ & C & R) | (msg & R)];
    rewrite R in H; injection H as <-; [| constructor].
  by eapply collect_source.
Qed.

(** X9: the results of one [search] all come from one backend: they all
    carry the source tag "SerpAPI" or they all carry "Google PSE"; results
    of the two backends are never mixed. *)
Theorem search_results_have_one_source self w q engine :
  exists rs,
    Ext.result (search self w q engine) = Py.Returned rs /\
    (Forall (fun r => source r = "SerpAPI") rs \/
     Forall (fun r => source r = "Google PSE") rs).
Proof.
  destruct (search_result_cases self w q engine) as (rs & R & [H | [H | H]]);
    exists rs; (split; [done |]).
  - subst rs. left. constructor.
  - left. by eapply _search_serpapi_source.
  - right. by eapply _search_google_pse_source.
Qed.

(** X10: [search] calls a backend only when that backend is configured,
    with the parameters built from the query, and does nothing else to the
    outside world than these calls and the printing of error messages. *)
Theorem search_calls_only_configured_backends self w q engine :
  Forall (fun e =>
            match e with
            | Ext.SerpAPISearch p =>
                serpapi_enabled self = true /\ p = serpapi_request w q
            | Ext.PSEExecute p =>
                google_pse_enabled self = true /\ p = pse_request w q
            | Ext.Print _ => True
            | _ => False
            end)
         (Ext.events (search self w q engine)).
Proof.
  destruct (_search_serpapi_cases w q) as [(i1 & rs1 & _ & _ & E1) | (m1 & E1)];
    destruct (_search_google_pse_cases w q) as [(i2 & rs2 & _ & _ & E2) | (m2 & E2)];
    unfold search; rewrite E1, E2;
    destruct (String.eqb engine "auto"), (String.eqb engine "serpapi"),
      (String.eqb engine "google_pse");
    destruct (serpapi_enabled self) eqn:Hs, (google_pse_enabled self) eqn:Hp;
    try destruct rs1; try destruct rs2; simpl; repeat constructor.
Qed.

End SearchMore.

(** ** Providers, continued *)

Section ProviderMore.
Implicit Types (w : Ext.World) (q ctx : string).

Lemma getitem_not_exited {V} (d : list (string * V)) k c :
  AIClient.getitem d k ≠ Py.Exited c.
Proof.
  induction d as [| [k' v] d IH]; simpl; [done |].
  by destruct (String.eqb k' k).
Qed.

(** The common shape of the adapters: look the configuration up, make one
    call, and turn any exception into a text that starts with [label]. *)
Lemma adapter_returns {C} (g : Py.outcome C) (mk : C -> Ext.llm_request)
    (label : string) w :
  (forall c, g ≠ Py.Exited c) ->
  exists evs s,
    Ext.try_except
      (let! cfg := Ext.lift g in Ext.call (Ext.LLMCall (mk cfg)) (Ext.llm w (mk cfg)))
      (fun e => Ext.ret (label +:+ e)) = (evs, Py.Returned s) /\
    length evs <= 1 /\
    Forall (fun e => exists rq, e = Ext.LLMCall rq) evs.
Proof.
  intros Hg. destruct g as [cfg | msg | c]; simpl.
  - unfold Ext.call. destruct (Ext.llm w (mk cfg)) as [text | msg]; simpl;
      do 2 eexists; (split; [reflexivity |]); simpl; split; try lia;
      repeat constructor; eauto.
  - do 2 eexists. split; [reflexivity |]. simpl. split; [lia | constructor].
  - by destruct (Hg c).
Qed.

Lemma query_returns (self : AIClient.t) w provider q ctx :
  exists evs s,
    AIClient.query self w provider q ctx = (evs, Py.Returned s) /\
    length evs <= 1 /\
    Forall (fun e => exists rq, e = Ext.LLMCall rq) evs.
Proof.
  unfold AIClient.query.
  destruct (negb _).
  { do 2 eexists. split; [reflexivity |]. simpl. split; [lia | constructor]. }
  destruct (String.eqb provider "deepseek").
  { apply (adapter_returns _
             (fun cfg => Ext.HttpPost (AIClient.api_url cfg) (AIClient.headers cfg)
                           "deepseek-chat" None (AIClient.chat_messages q ctx)
                           2000 (Some 30%Z))).
    intros c. apply getitem_not_exited. }
  destruct (String.eqb provider "openai").
  { apply (adapter_returns _
             (fun cfg => Ext.HttpPost (AIClient.api_url cfg) (AIClient.headers cfg)
                           "gpt-3.5-turbo" None (AIClient.chat_messages q ctx)
                           2000 (Some 30%Z))).
    intros c. apply getitem_not_exited. }
  destruct (String.eqb provider "anthropic").
  { apply (adapter_returns _
             (fun cfg => Ext.HttpPost (AIClient.api_url cfg) (AIClient.headers cfg)
                           "claude-3-sonnet-20240229"
                           (Some (AIClient.with_context AIClient.preamble ctx))
                           [("user", q)] 2000 (Some 30%Z))).
    intros c. apply getitem_not_exited. }
  destruct (String.eqb provider "gemini").
  { unfold AIClient._query_gemini, Ext.call.
    destruct (Ext.llm w _) as [text | msg]; simpl;
      do 2 eexists; (split; [reflexivity |]); simpl; split; try lia;
      repeat constructor; eauto. }
  destruct (String.eqb provider "huggingface").
  { apply (adapter_returns _
             (fun cfg => Ext.HFTextGeneration "mistralai/Mixtral-8x7B-Instruct-v0.1"
                           (AIClient.api_key cfg)
                           (AIClient.with_context ("<s>[INST] " +:+ AIClient.preamble) ctx
                            +:+ Py.nl +:+ Py.nl +:+ "User query: " +:+ q +:+ " [/INST]")
                           2000)).
    intros c. apply getitem_not_exited. }
  do 2 eexists. split; [reflexivity |]. simpl. split; [lia | constructor].
Qed.

(** What an adapter returns: the content of the completion when its one
    call succeeds, and otherwise a text made of the adapter's name and the
    message of the exception. *)
Lemma adapter_outcome {C} (g : Py.outcome C) (mk : C -> Ext.llm_request)
    (name : string) w :
  (forall c, g ≠ Py.Exited c) ->
  exists evs s,
    Ext.try_except
      (let! cfg := Ext.lift g in Ext.call (Ext.LLMCall (mk cfg)) (Ext.llm w (mk cfg)))
      (fun e => Ext.ret ("Error calling " +:+ name +:+ " API: " +:+ e))
    = (evs, Py.Returned s) /\
    ((evs = [] /\ exists msg, s = "Error calling " +:+ name +:+ " API: " +:+ msg) \/
     (exists rq, evs = [Ext.LLMCall rq] /\
        (Ext.llm w rq = Ext.Ok s \/
         exists msg, Ext.llm w rq = Ext.Fail msg /\
                     s = "Error calling " +:+ name +:+ " API: " +:+ msg))).
Proof.
  intros Hg. destruct g as [cfg | msg | c]; simpl.
  - unfold Ext.call. destruct (Ext.llm w (mk cfg)) as [text | msg] eqn:E; simpl;
      do 2 eexists; (split; [reflexivity |]); right; exists (mk cfg);
      (split; [reflexivity |]); rewrite E; eauto.
  - do 2 eexists. split; [reflexivity |]. left. eauto.
  - by destruct (Hg c).
Qed.

(** X11: [query] never raises, whatever the client and the provider id
    are, and whether the provider API answers or fails: every exception of
    the call, and of the look-up of the configuration, is caught and turned
    into the returned value.  It makes at most one call, which is a call to
    a provider API.  After a call it returns the content of the completion
    as it is, or the text "Error calling <Name> API: <detail>" when the
    call failed; without a call it returns one of the messages for a
    provider that is not available or not known, or such an error text.
    (The content of a completion is a string in this model.) *)
Theorem query_never_raises (self : AIClient.t) w provider q ctx :
  exists evs s,
    AIClient.query self w provider q ctx = (evs, Py.Returned s) /\
    length evs <= 1 /\
    Forall (fun e => exists rq, e = Ext.LLMCall rq) evs /\
    ((evs = [] /\
      (s = "Provider '" +:+ provider +:+ "' is not available." \/
       s = "Unknown provider: " +:+ provider \/
       exists name msg, s = "Error calling " +:+ name +:+ " API: " +:+ msg)) \/
     (exists rq, evs = [Ext.LLMCall rq] /\
        (Ext.llm w rq = Ext.Ok s \/
         exists name msg, Ext.llm w rq = Ext.Fail msg /\
                          s = "Error calling " +:+ name +:+ " API: " +:+ msg))).
Proof.
  assert (Hwrap : forall (m : Ext.io string) name,
    (exists evs s, m = (evs, Py.Returned s) /\
       ((evs = [] /\ exists msg, s = "Error calling " +:+ name +:+ " API: " +:+ msg) \/
        (exists rq, evs = [Ext.LLMCall rq] /\
           (Ext.llm w rq = Ext.Ok s \/
            exists msg, Ext.llm w rq = Ext.Fail msg /\
                        s = "Error calling " +:+ name +:+ " API: " +:+ msg)))) ->
    exists evs s, m = (evs, Py.Returned s) /\
      length evs <= 1 /\
      Forall (fun e => exists rq, e = Ext.LLMCall rq) evs /\
      ((evs = [] /\
        (s = "Provider '" +:+ provider +:+ "' is not available." \/
         s = "Unknown provider: " +:+ provider \/
         exists name msg, s = "Error calling " +:+ name +:+ " API: " +:+ msg)) \/
       (exists rq, evs = [Ext.LLMCall rq] /\
          (Ext.llm w rq = Ext.Ok s \/
           exists name msg, Ext.llm w rq = Ext.Fail msg /\
                            s = "Error calling " +:+ name +:+ " API: " +:+ msg)))).
  { intros m name (evs & s & E & [[-> (msg & ->)] | (rq & -> & H)]).
    - do 2 eexists. split; [exact E |]. simpl. split; [lia |].
      split; [constructor |]. left. split; [done |]. right. right. eauto.
    - do 2 eexists. split; [exact E |]. simpl. split; [lia |].
      split; [repeat constructor; eauto |]. right. exists rq. split; [done |].
      destruct H as [H | (msg & H & ->)]; [by left | right; eauto]. }
  unfold AIClient.query.
  destruct (negb _).
  { do 2 eexists. split; [reflexivity |]. simpl. split; [lia |].
    split; [constructor |]. left. split; [done |]. by left. }
  destruct (String.eqb provider "deepseek").
  { apply (Hwrap _ "DeepSeek").
    apply (adapter_outcome _
             (fun cfg => Ext.HttpPost (AIClient.api_url cfg) (AIClient.headers cfg)
                           "deepseek-chat" None (AIClient.chat_messages q ctx)
                           2000 (Some 30%Z)) "DeepSeek").
    intros c. apply getitem_not_exited. }
  destruct (String.eqb provider "openai").
  { apply (Hwrap _ "OpenAI").
    apply (adapter_outcome _
             (fun cfg => Ext.HttpPost (AIClient.api_url cfg) (AIClient.headers cfg)
                           "gpt-3.5-turbo" None (AIClient.chat_messages q ctx)
                           2000 (Some 30%Z)) "OpenAI").
    intros c. apply getitem_not_exited. }
  destruct (String.eqb provider "anthropic").
  { apply (Hwrap _ "Anthropic").
    apply (adapter_outcome _
             (fun cfg => Ext.HttpPost (AIClient.api_url cfg) (AIClient.headers cfg)
                           "claude-3-sonnet-20240229"
                           (Some (AIClient.with_context AIClient.preamble ctx))
                           [("user", q)] 2000 (Some 30%Z)) "Anthropic").
    intros c. apply getitem_not_exited. }
  destruct (String.eqb provider "gemini").
  { apply (Hwrap _ "Gemini").
    apply (adapter_outcome (Py.Returned tt)
             (fun _ => Ext.GeminiGenerate "gemini-2.0-flash"
                         (AIClient.with_context AIClient.preamble ctx
                          +:+ Py.nl +:+ Py.nl +:+ "User query: " +:+ q)) "Gemini").
    done. }
  destruct (String.eqb provider "huggingface").
  { apply (Hwrap _ "Hugging Face").
    apply (adapter_outcome _
             (fun cfg => Ext.HFTextGeneration "mistralai/Mixtral-8x7B-Instruct-v0.1"
                           (AIClient.api_key cfg)
                           (AIClient.with_context ("<s>[INST] " +:+ AIClient.preamble) ctx
                            +:+ Py.nl +:+ Py.nl +:+ "User query: " +:+ q +:+ " [/INST]")
                           2000) "Hugging Face").
    intros c. apply getitem_not_exited. }
  do 2 eexists. split; [reflexivity |]. simpl. split; [lia |].
  split; [constructor |]. left. split; [done |]. right. by left.
Qed.

(** The five provider ids, in the order of the dict literal. *)
Lemma provider_table_ids w :
  map fst (AIClient.provider_table w) =
  ["deepseek"; "openai"; "anthropic"; "gemini"; "huggingface"].
Proof. reflexivity. Qed.

Lemma available_is_known w p :
  p ∈ AIClient.get_available_providers
        {| AIClient.providers := AIClient.provider_table w |} ->
  p ∈ ["deepseek"; "openai"; "anthropic"; "gemini"; "huggingface"].
Proof.
  intros Hin. rewrite <- (provider_table_ids w).
  apply get_available_providers_spec in Hin as (cfg & Hin & _).
  apply list_elem_of_fmap. by exists (p, cfg).
Qed.

(** X12: for a provider that is available in the client built at start-up,
    [query] makes exactly one call to the provider API; the text of a
    successful answer is returned as it is, and a failure is returned as
    the text "Error calling <Name> API: <detail>", with the name of the
    provider's adapter. *)
Theorem query_available_provider_one_call w p q ctx :
  p ∈ AIClient.get_available_providers
        {| AIClient.providers := AIClient.provider_table w |} ->
  exists rq label,
    (p, label) ∈ [("deepseek", "DeepSeek"); ("openai", "OpenAI");
                  ("anthropic", "Anthropic"); ("gemini", "Gemini");
                  ("huggingface", "Hugging Face")] /\
    AIClient.query {| AIClient.providers := AIClient.provider_table w |} w p q ctx =
    ([Ext.LLMCall rq],
     Py.Returned match Ext.llm w rq with
                 | Ext.Ok text => text
                 | Ext.Fail msg => "Error calling " +:+ label +:+ " API: " +:+ msg
                 end).
Proof.
  intros Hin. pose proof (available_is_known w p Hin) as Hp.
  unfold AIClient.query. rewrite (bool_decide_eq_true_2 _ Hin). simpl negb. cbv iota.
  repeat (apply elem_of_cons in Hp as [-> | Hp];
          [ simpl String.eqb; cbv iota;
            unfold AIClient._query_deepseek, AIClient._query_openai,
              AIClient._query_anthropic, AIClient._query_gemini,
              AIClient._query_huggingface, Ext.call; simpl;
            match goal with
            | |- context [Ext.llm w ?r] =>
                exists r; destruct (Ext.llm w r) as [text | msg]; simpl
            end;
            eexists;
            (split;
             [ repeat first [apply list_elem_of_here | apply list_elem_of_further]
             | reflexivity ])
          | ]).
  by apply elem_of_nil in Hp.
Qed.

Lemma query_available_provider_one_call_witness :
  exists rq label,
    ("anthropic", label) ∈ [("deepseek", "DeepSeek"); ("openai", "OpenAI");
                            ("anthropic", "Anthropic"); ("gemini", "Gemini");
                            ("huggingface", "Hugging Face")] /\
    AIClient.query {| AIClient.providers := AIClient.provider_table Examples.apis_down |}
      Examples.apis_down "anthropic" "What is Rocq?" "" =
    ([Ext.LLMCall rq],
     Py.Returned match Ext.llm Examples.apis_down rq with
                 | Ext.Ok text => text
                 | Ext.Fail msg => "Error calling " +:+ label +:+ " API: " +:+ msg
                 end).
Proof.
  apply (query_available_provider_one_call Examples.apis_down "anthropic"
           "What is Rocq?" "").
  apply (bool_decide_unpack _). vm_compute. exact I.
Defined.

(** X13: building the client at start-up always succeeds and reaches no
    provider and no search backend: the only thing it does outside is to
    register the Gemini key with the SDK, once, and only when that key is
    set.  The available providers are listed in the order of the dict
    literal (deepseek, openai, anthropic, gemini, huggingface), each at
    most once. *)
Theorem client_start_up w :
  exists c,
    AIClient.init w =
    (if Py.truthy (Ext.getenv w "GEMINI_API_KEY")
     then [Ext.GenaiConfigure (Ext.getenv w "GEMINI_API_KEY")] else [],
     Py.Returned c) /\
    AIClient.get_available_providers c
      `sublist_of` ["deepseek"; "openai"; "anthropic"; "gemini"; "huggingface"] /\
    NoDup (AIClient.get_available_providers c).
Proof.
  exists {| AIClient.providers := AIClient.provider_table w |}.
  assert (Hsub : AIClient.get_available_providers
                   {| AIClient.providers := AIClient.provider_table w |}
                 `sublist_of` ["deepseek"; "openai"; "anthropic"; "gemini"; "huggingface"]).
  { rewrite <- (provider_table_ids w). unfold AIClient.get_available_providers.
    apply (fmap_sublist fst), sublist_filter. }
  split; [| split; [exact Hsub |]].
  - unfold AIClient.init, AIClient._initialize_providers. simpl.
    by destruct (Py.truthy (Ext.getenv w "GEMINI_API_KEY")).
  - refine (sublist_NoDup _ _ _ Hsub).
    apply (bool_decide_unpack _). vm_compute. exact I.
Qed.




End ProviderMore.

(** ** The query pipeline, continued *)

Section PipelineMore.
Import App.
Implicit Types (app : App.t) (w : Ext.World) (data : request).

(** The values that [api_research] reads from a request. *)
Local Abbreviation query_of data := (default "" (rq_query data)).
Local Abbreviation sid_of w data := (default (Ext.uuid4 w) (rq_session_id data)).
Local Abbreviation provider_of app data :=
  (default (match AIClient.get_available_providers (ai_client app) with
            | p :: _ => p
            | [] => "deepseek"
            end) (rq_provider data)).
Local Abbreviation context_of app w data :=
  (MemoryManager.get_context (memory_manager app) (sid_of w data)).1.

Lemma search_returns (self : WebSearch.t) w q engine :
  exists ev rs, WebSearch.search self w q engine = (ev, Py.Returned rs).
Proof.
  destruct (search_result_cases self w q engine) as (rs & R & _).
  destruct (WebSearch.search self w q engine) as [ev o]. simpl in R. subst o. eauto.
Qed.

Lemma query_unavailable_eq (self : AIClient.t) w provider q ctx :
  provider ∉ AIClient.get_available_providers self ->
  AIClient.query self w provider q ctx =
  ([], Py.Returned ("Provider '" +:+ provider +:+ "' is not available.")).
Proof.
  intros Hnot. unfold AIClient.query. by rewrite (bool_decide_eq_false_2 _ Hnot).
Qed.

(** What a request does, whatever the request, the components and the
    outside world are. *)
Lemma api_research_shape app w data :
  exists evs results dispatched answer,
    api_research app w data =
    (evs,
     Py.Returned
       ({| response := answer; search_results := results;
           session_id := sid_of w data |},
        {| ai_client := ai_client app; web_search := web_search app;
           memory_manager :=
             MemoryManager.add_exchange (memory_manager app) (sid_of w data)
               dispatched answer |})) /\
    ((results = [] /\ dispatched = query_of data) \/
     (results ≠ [] /\ dispatched = augment (query_of data) results)) /\
    (exists evq,
        AIClient.query (ai_client app) w (provider_of app data) dispatched
          (context_of app w data) = (evq, Py.Returned answer)).
Proof.
  unfold api_research.
  pose proof (get_context_state (memory_manager app) (sid_of w data)) as Hst.
  destruct (MemoryManager.get_context (memory_manager app) (sid_of w data))
    as [ctx mm] eqn:Hctx.
  simpl in Hst. subst mm. simpl fst.
  destruct (default false (rq_web_search data)
            && WebSearch.is_available (web_search app)).
  - destruct (search_returns (web_search app) w (query_of data) "auto")
      as (ev & rs & ->).
    destruct rs as [| r rs]; simpl.
    + destruct (query_returns (ai_client app) w (provider_of app data)
                  (query_of data) ctx) as (evq & answer & Hq & _).
      rewrite Hq. simpl. do 4 eexists. split; [reflexivity |].
      split; [by left | eauto].
    + destruct (query_returns (ai_client app) w (provider_of app data)
                  (augment (query_of data) (r :: rs)) ctx) as (evq & answer & Hq & _).
      rewrite Hq. simpl. do 4 eexists. split; [reflexivity |].
      split; [by right | eauto].
  - simpl.
    destruct (query_returns (ai_client app) w (provider_of app data)
                (query_of data) ctx) as (evq & answer & Hq & _).
    rewrite Hq. simpl. do 4 eexists. split; [reflexivity |].
    split; [by left | eauto].
Qed.

(** X15: a request to [/api/research] whose body is well typed (a JSON
    object in which the query, the provider and the session id are strings
    and the web-search flag is a boolean, each possibly missing) always ends
    in a reply, never in an exception, whether the providers and the search
    backends answer or fail.  The reply names the session of the request (a
    fresh id when the request has none); the client and the search
    component are left as they were;
    the memory gains exactly one exchange, in the session of the request,
    whose answer is the reply's text and whose query is the user's query
    or, when search results came back, the query with the results
    appended; no other session is touched. *)
Theorem api_research_always_replies app w data :
  exists evs reply app' dispatched,
    api_research app w data = (evs, Py.Returned (reply, app')) /\
    session_id reply = sid_of w data /\
    ai_client app' = ai_client app /\
    web_search app' = web_search app /\
    memory_manager app' =
      MemoryManager.add_exchange (memory_manager app) (sid_of w data)
        dispatched (response reply) /\
    ((search_results reply = [] /\ dispatched = query_of data) \/
     (search_results reply ≠ [] /\
      dispatched = augment (query_of data) (search_results reply))) /\
    (forall sid', sid_of w data ≠ sid' ->
       MemoryManager.conversation_history (memory_manager app') !! sid' =
       MemoryManager.conversation_history (memory_manager app) !! sid').
Proof.
  destruct (api_research_shape app w data)
    as (evs & results & dispatched & answer & E & Hd & _).
  do 4 eexists. split; [exact E |]. simpl.
  repeat (split; [done |]).
  intros sid' Hne. by apply add_exchange_lookup_ne.
Qed.

(** X16: when the request does not ask for web search, or no search
    backend is configured, [api_research] makes no search call: it hands
    the user's query as it is to the provider, replies with an empty
    result list and records the user's query. *)
Theorem api_research_without_search app w data :
  default false (rq_web_search data) && WebSearch.is_available (web_search app)
  = false ->
  api_research app w data =
  (let! answer := AIClient.query (ai_client app) w (provider_of app data)
                    (query_of data) (context_of app w data) in
   Ext.ret ({| response := answer; search_results := [];
               session_id := sid_of w data |},
            {| ai_client := ai_client app; web_search := web_search app;
               memory_manager :=
                 MemoryManager.add_exchange (memory_manager app) (sid_of w data)
                   (query_of data) answer |})).
Proof.
  intros Hoff. unfold api_research.
  pose proof (get_context_state (memory_manager app) (sid_of w data)) as Hst.
  destruct (MemoryManager.get_context (memory_manager app) (sid_of w data))
    as [ctx mm] eqn:Hctx.
  simpl in Hst. subst mm. simpl fst. rewrite Hoff. simpl.
  by destruct (AIClient.query _ _ _ _ _) as [evq [answer | msg | c]].
Qed.

Lemma api_research_without_search_witness :
  api_research Examples.web_app Examples.two_results
    {| rq_query := Some "What is Rocq?"; rq_provider := None;
       rq_web_search := None; rq_session_id := Some "s1" |} =
  ([Ext.LLMCall
      (Ext.HttpPost (Some "https://api.deepseek.com/v1/chat/completions")
         [("Authorization", Some "Bearer ds-key");
          ("Content-Type", Some "application/json")]
         "deepseek-chat" None
         [("system", AIClient.preamble); ("user", "What is Rocq?")]
         2000 (Some 30%Z))],
   Py.Returned
     ({| response := "answer"; search_results := []; session_id := "s1" |},
      {| ai_client := Examples.deepseek_client;
         web_search := WebSearch.init Examples.two_results;
         memory_manager :=
           MemoryManager.add_exchange MemoryManager.init_default "s1"
             "What is Rocq?" "answer" |})).
Proof.
  rewrite (api_research_without_search Examples.web_app Examples.two_results
             {| rq_query := Some "What is Rocq?"; rq_provider := None;
                rq_web_search := None; rq_session_id := Some "s1" |} eq_refl).
  reflexivity.
Defined.

(** X17: when no provider is available, a request is still answered and
    still recorded: the reply is the text "Provider '<id>' is not
    available." for the provider of the request ("deepseek" when the
    request names none), and this text is stored in the memory as the
    answer of the exchange. *)
Theorem api_research_records_unavailable_reply app w data :
  AIClient.get_available_providers (ai_client app) = [] ->
  exists evs reply app' dispatched,
    api_research app w data = (evs, Py.Returned (reply, app')) /\
    response reply =
      "Provider '" +:+ default "deepseek" (rq_provider data) +:+ "' is not available." /\
    memory_manager app' =
      MemoryManager.add_exchange (memory_manager app) (sid_of w data) dispatched
        ("Provider '" +:+ default "deepseek" (rq_provider data)
         +:+ "' is not available.").
Proof.
  intros Hnone.
  destruct (api_research_shape app w data)
    as (evs & results & dispatched & answer & E & _ & evq & Hq).
  rewrite query_unavailable_eq in Hq
    by (rewrite Hnone; apply not_elem_of_nil).
  injection Hq as _ <-. rewrite Hnone in E.
  do 4 eexists. split; [exact E |]. done.
Qed.

Lemma api_research_records_unavailable_reply_witness :
  exists evs reply app' dispatched,
    api_research
      {| ai_client := {| AIClient.providers := AIClient.provider_table Examples.no_keys |};
         web_search := WebSearch.init Examples.no_keys;
         memory_manager := MemoryManager.init_default |}
      Examples.no_keys
      {| rq_query := Some "hello"; rq_provider := None;
         rq_web_search := Some true; rq_session_id := None |}
    = (evs, Py.Returned (reply, app')) /\
    response reply =
      "Provider '" +:+ default "deepseek" None +:+ "' is not available." /\
    memory_manager app' =
      MemoryManager.add_exchange MemoryManager.init_default
        (default (Ext.uuid4 Examples.no_keys) None) dispatched
        ("Provider '" +:+ default "deepseek" None +:+ "' is not available.").
Proof.
  apply (api_research_records_unavailable_reply
           {| ai_client :=
                {| AIClient.providers := AIClient.provider_table Examples.no_keys |};
              web_search := WebSearch.init Examples.no_keys;
              memory_manager := MemoryManager.init_default |}
           Examples.no_keys
           {| rq_query := Some "hello"; rq_provider := None;
              rq_web_search := Some true; rq_session_id := None |}).
  reflexivity.
Defined.

End PipelineMore.

(** ** Documents *)

Section DocumentFacts.
Implicit Types (s base ext : string) (sep : ascii).

Lemma split_on_nonempty sep s : Py.split_on sep s ≠ [].
Proof.
  destruct s as [| c s]; simpl; [done |].
  destruct (Ascii.eqb c sep); [done |]. by destruct (Py.split_on sep s).
Qed.

Lemma split_on_no_sep sep s : sep ∉ Py.chars s -> Py.split_on sep s = [s].
Proof.
  induction s as [| c s IH]; simpl; [done |]. intros Hnot.
  apply not_elem_of_cons in Hnot as [Hne Hnot].
  destruct (Ascii.eqb_spec c sep) as [-> | _]; [done |].
  by rewrite IH.
Qed.

Lemma split_on_app_sep sep base s :
  exists pre, pre ≠ [] /\
    Py.split_on sep (base +:+ String sep s) = pre ++ Py.split_on sep s.
Proof.
  induction base as [| c base IH].
  - exists [""]. split; [done |].
    change ("" +:+ String sep s) with (String sep s). simpl.
    by rewrite Ascii.eqb_refl.
  - destruct IH as (pre & Hne & IH). destruct pre as [| p pre]; [done |].
    change (String c base +:+ String sep s) with (String c (base +:+ String sep s)).
    simpl. rewrite IH. destruct (Ascii.eqb c sep).
    + by exists ("" :: p :: pre).
    + by exists (String c p :: pre).
Qed.

Lemma last_piece_app pre l : l ≠ [] -> Py.last_piece (pre ++ l) = Py.last_piece l.
Proof.
  intros Hl. unfold Py.last_piece. induction pre as [| p pre IH]; [done |].
  simpl. destruct (pre ++ l) eqn:E; [| done].
  apply app_eq_nil in E as [_ ?]. done.
Qed.

Lemma get_extension_spec base ext :
  "."%char ∉ Py.chars ext ->
  DocumentProcessor.get_extension DocumentProcessor.init (base +:+ "." +:+ ext)
  = Py.lower ext /\
  DocumentProcessor.get_extension DocumentProcessor.init ext = Py.lower ext.
Proof.
  intros Hnot. unfold DocumentProcessor.get_extension. split.
  - change ("." +:+ ext) with (String "."%char ext).
    destruct (split_on_app_sep "."%char base ext) as (pre & _ & ->).
    rewrite last_piece_app by apply split_on_nonempty.
    by rewrite split_on_no_sep.
  - by rewrite split_on_no_sep.
Qed.

(** X18: the extension of a file name is what follows its last dot, in
    small letters, and a name without any dot is its own extension; so
    whether a file is supported depends on nothing but these last
    characters, whatever their case ("Thesis.V2.PDF" and a file called
    "pdf" are both supported). *)
Theorem extension_is_after_last_dot base ext :
  "."%char ∉ Py.chars ext ->
  DocumentProcessor.get_extension DocumentProcessor.init (base +:+ "." +:+ ext)
  = Py.lower ext /\
  DocumentProcessor.get_extension DocumentProcessor.init ext = Py.lower ext /\
  DocumentProcessor.is_supported DocumentProcessor.init (base +:+ "." +:+ ext)
  = bool_decide (Py.lower ext ∈ ["txt"; "pdf"; "docx"]) /\
  DocumentProcessor.is_supported DocumentProcessor.init ext
  = bool_decide (Py.lower ext ∈ ["txt"; "pdf"; "docx"]).
Proof.
  intros Hnot. destruct (get_extension_spec base ext Hnot) as [H1 H2].
  unfold DocumentProcessor.is_supported, DocumentProcessor.get_extension in *.
  by rewrite H1, H2.
Qed.

Lemma extension_is_after_last_dot_witness :
  DocumentProcessor.get_extension DocumentProcessor.init ("Thesis.V2" +:+ "." +:+ "PDF")
  = Py.lower "PDF" /\
  DocumentProcessor.get_extension DocumentProcessor.init "PDF" = Py.lower "PDF" /\
  DocumentProcessor.is_supported DocumentProcessor.init ("Thesis.V2" +:+ "." +:+ "PDF")
  = bool_decide (Py.lower "PDF" ∈ ["txt"; "pdf"; "docx"]) /\
  DocumentProcessor.is_supported DocumentProcessor.init "PDF"
  = bool_decide (Py.lower "PDF" ∈ ["txt"; "pdf"; "docx"]).
Proof.
  apply (extension_is_after_last_dot "Thesis.V2" "PDF").
  apply (bool_decide_unpack _). vm_compute. exact I.
Defined.

Lemma concat_pages_ok text texts :
  DocumentProcessor.concat_pages text (map Ext.Ok texts)
  = Ext.Ok (text +:+ Py.join "" texts).
Proof.
  revert text. induction texts as [| t texts IH]; intros text; simpl.
  - by rewrite string_app_nil_r.
  - rewrite IH. rewrite string_app_assoc. do 2 f_equal.
    destruct texts as [| t' texts]; [by rewrite string_app_nil_r | done].
Qed.

Lemma concat_pages_fail text pages msg :
  Ext.Fail msg ∈ pages ->
  exists msg', DocumentProcessor.concat_pages text pages = Ext.Fail msg'.
Proof.
  revert text. induction pages as [| [t | m] pages IH]; intros text Hin.
  - by apply elem_of_nil in Hin.
  - apply elem_of_cons in Hin as [? | Hin]; [done |]. simpl. by apply IH.
  - simpl. eauto.
Qed.

(** X19: [extract_text] never raises and answers by the extension alone.
    For "pdf" the text is the page texts put together with nothing in
    between, and one page that fails to extract loses the whole document;
    for "docx" it is the paragraphs joined by newlines; for "txt" the
    decoded file.  A file that is not there, or that the library rejects,
    gives a text that starts with "Error extracting text: "; any other
    extension, also "PDF" in capitals, gives "Unsupported file type". *)
Theorem extract_text_by_extension (fs : DocumentProcessor.Files) path bytes :
  let extract := DocumentProcessor.extract_text DocumentProcessor.init in
  (forall e, e ≠ "pdf" -> e ≠ "docx" -> e ≠ "txt" ->
             extract fs path e = "Unsupported file type") /\
  (DocumentProcessor.disk fs !! path = None ->
   forall e, e ∈ ["pdf"; "docx"; "txt"] ->
     extract fs path e =
     "Error extracting text: "
     +:+ (if String.eqb e "docx" then DocumentProcessor.docx_error fs path
          else DocumentProcessor.open_error fs path)) /\
  (DocumentProcessor.disk fs !! path = Some bytes ->
   (forall texts,
       DocumentProcessor.pdf_pages fs bytes = Ext.Ok (map Ext.Ok texts) ->
       extract fs path "pdf" = Py.join "" texts) /\
   (forall pages msg,
       DocumentProcessor.pdf_pages fs bytes = Ext.Ok pages ->
       Ext.Fail msg ∈ pages ->
       exists msg', extract fs path "pdf" = "Error extracting text: " +:+ msg') /\
   (forall paragraphs,
       DocumentProcessor.docx_paragraphs fs bytes = Ext.Ok paragraphs ->
       extract fs path "docx" = Py.join Py.nl paragraphs) /\
   (forall text,
       DocumentProcessor.utf8_decode fs bytes = Ext.Ok text ->
       extract fs path "txt" = text) /\
   (forall msg,
       DocumentProcessor.utf8_decode fs bytes = Ext.Fail msg ->
       extract fs path "txt" = "Error extracting text: " +:+ msg)).
Proof.
  cbv zeta. unfold DocumentProcessor.extract_text, DocumentProcessor.open,
    DocumentProcessor.open_docx.
  split; [| split].
  - intros e H1 H2 H3. apply String.eqb_neq in H1, H2, H3. by rewrite H1, H2, H3.
  - intros E e He. rewrite E.
    repeat (apply elem_of_cons in He as [-> | He]; [done |]).
    by apply elem_of_nil in He.
  - intros E. rewrite E. simpl. repeat split.
    + intros texts ->. simpl. by rewrite concat_pages_ok.
    + intros pages msg -> Hin. simpl.
      destruct (concat_pages_fail "" pages msg Hin) as [msg' ->]. eauto.
    + by intros paragraphs ->.
    + by intros text ->.
    + by intros msg ->.
Qed.


(** X20: what a request to [/api/analyze_document] gets is decided by its
    file.  Without a file the answer is the error "No file uploaded" with
    status 400, and with a file whose extension is not supported it is the
    error "Unsupported file type" with status 400; in both cases nothing
    is called, recorded or written.  With a supported file, the upload is
    saved under a temporary name that ends in the extension, its text is
    extracted, the provider is asked once with the document prompt built
    from that text and the user's question, and the answer comes back with
    the session of the request; the memory gains one exchange in that
    session, whose query is "Document analysis query: " followed by the
    user's question (the document is not recorded), and the temporary file
    is gone again. *)
Theorem api_analyze_document_answers_by_request (app : App.t) w fs tmp form :
  (App.dr_file form = None ->
   App.api_analyze_document app w fs tmp form =
   ([], Py.Returned (App.DocError "No file uploaded" 400, app, fs))) /\
  (forall file,
      App.dr_file form = Some file ->
      DocumentProcessor.is_supported DocumentProcessor.init (App.filename file) = false ->
      App.api_analyze_document app w fs tmp form =
      ([], Py.Returned (App.DocError "Unsupported file type" 400, app, fs))) /\
  (forall file,
      App.dr_file form = Some file ->
      DocumentProcessor.is_supported DocumentProcessor.init (App.filename file) = true ->
      let ext := DocumentProcessor.get_extension DocumentProcessor.init
                   (App.filename file) in
      let sid := default (Ext.uuid4 w) (App.dr_session_id form) in
      let query := default "Analyze this document" (App.dr_query form) in
      let provider :=
        default (match AIClient.get_available_providers (App.ai_client app) with
                 | p :: _ => p
                 | [] => "deepseek"
                 end) (App.dr_provider form) in
      let text :=
        DocumentProcessor.extract_text DocumentProcessor.init
          (DocumentProcessor.mkFiles
             (<[tmp +:+ "." +:+ ext := App.content file]> (DocumentProcessor.disk fs))
             (DocumentProcessor.pdf_pages fs) (DocumentProcessor.docx_paragraphs fs)
             (DocumentProcessor.utf8_decode fs) (DocumentProcessor.open_error fs)
             (DocumentProcessor.docx_error fs))
          (tmp +:+ "." +:+ ext) ext in
      App.api_analyze_document app w fs tmp form =
      (let! answer :=
         AIClient.query (App.ai_client app) w provider
           (App.document_query text query)
           (MemoryManager.get_context (App.memory_manager app) sid).1 in
       Ext.ret
         (App.DocOk answer sid,
          {| App.ai_client := App.ai_client app;
             App.web_search := App.web_search app;
             App.memory_manager :=
               MemoryManager.add_exchange (App.memory_manager app) sid
                 ("Document analysis query: " +:+ query) answer |},
          DocumentProcessor.mkFiles
            (delete (tmp +:+ "." +:+ ext) (DocumentProcessor.disk fs))
            (DocumentProcessor.pdf_pages fs) (DocumentProcessor.docx_paragraphs fs)
            (DocumentProcessor.utf8_decode fs) (DocumentProcessor.open_error fs)
            (DocumentProcessor.docx_error fs))) /\
      exists evs answer,
        AIClient.query (App.ai_client app) w provider
          (App.document_query text query)
          (MemoryManager.get_context (App.memory_manager app) sid).1
        = (evs, Py.Returned answer) /\
        length evs <= 1).
Proof.
  split; [| split].
  - intros Hf. unfold App.api_analyze_document. by rewrite Hf.
  - intros file Hf Hsup. unfold App.api_analyze_document. by rewrite Hf, Hsup.
  - intros file Hf Hsup. cbv zeta. split.
    + unfold App.api_analyze_document. rewrite Hf, Hsup. simpl negb. cbv iota.
      cbv zeta. simpl DocumentProcessor.disk. rewrite delete_insert_eq.
      pose proof (get_context_state (App.memory_manager app)
                    (default (Ext.uuid4 w) (App.dr_session_id form))) as Hst.
      destruct (MemoryManager.get_context (App.memory_manager app)
                  (default (Ext.uuid4 w) (App.dr_session_id form)))
        as [ctx mm] eqn:Hctx.
      simpl in Hst. subst mm. reflexivity.
    + match goal with
      | |- context [AIClient.query ?c ?w' ?p ?q ?x] =>
          destruct (query_returns c w' p q x) as (evs & answer & Hq & Hlen & _)
      end.
      eauto.
Qed.

(** X21: a failed extraction does not stop the analysis: when the text of
    an uploaded ".txt" file cannot be decoded, no error is reported to the
    caller; the message "Error extracting text: <detail>" takes the place
    of the document text in the prompt, the provider is asked as usual and
    its answer is returned and recorded. *)
Theorem failed_extraction_is_still_analysed (app : App.t) w fs tmp form file msg :
  App.dr_file form = Some file ->
  DocumentProcessor.get_extension DocumentProcessor.init (App.filename file) = "txt" ->
  DocumentProcessor.utf8_decode fs (App.content file) = Ext.Fail msg ->
  let query := default "Analyze this document" (App.dr_query form) in
  let sid := default (Ext.uuid4 w) (App.dr_session_id form) in
  App.api_analyze_document app w fs tmp form =
  (let! answer :=
     AIClient.query (App.ai_client app) w
       (default (match AIClient.get_available_providers (App.ai_client app) with
                 | p :: _ => p
                 | [] => "deepseek"
                 end) (App.dr_provider form))
       (App.document_query ("Error extracting text: " +:+ msg) query)
       (MemoryManager.get_context (App.memory_manager app) sid).1 in
   Ext.ret
     (App.DocOk answer sid,
      {| App.ai_client := App.ai_client app;
         App.web_search := App.web_search app;
         App.memory_manager :=
           MemoryManager.add_exchange (App.memory_manager app) sid
             ("Document analysis query: " +:+ query) answer |},
      DocumentProcessor.mkFiles
        (delete (tmp +:+ "." +:+ "txt") (DocumentProcessor.disk fs))
        (DocumentProcessor.pdf_pages fs) (DocumentProcessor.docx_paragraphs fs)
        (DocumentProcessor.utf8_decode fs) (DocumentProcessor.open_error fs)
        (DocumentProcessor.docx_error fs))).
Proof.
  intros Hf Hext Hdec. cbv zeta. unfold App.api_analyze_document. rewrite Hf.
  unfold DocumentProcessor.is_supported.
  unfold DocumentProcessor.get_extension in Hext |- *. rewrite Hext.
  rewrite bool_decide_eq_true_2 by apply list_elem_of_here.
  simpl negb. cbv iota. cbv zeta.
  unfold DocumentProcessor.extract_text, DocumentProcessor.open. simpl.
  rewrite lookup_insert_eq. simpl. rewrite Hdec, delete_insert_eq.
  pose proof (get_context_state (App.memory_manager app)
                (default (Ext.uuid4 w) (App.dr_session_id form))) as Hst.
  destruct (MemoryManager.get_context (App.memory_manager app)
              (default (Ext.uuid4 w) (App.dr_session_id form))) as [ctx mm] eqn:Hctx.
  simpl in Hst. subst mm. simpl fst. reflexivity.
Qed.

Lemma failed_extraction_is_still_analysed_witness :
  exists evs answer app' fs',
    App.api_analyze_document Examples.web_app Examples.two_results
      Examples.plain_text_only "/tmp/tmpk3x9" Examples.broken_upload
    = (evs, Py.Returned (App.DocOk answer "s1", app', fs')) /\
    evs = [Ext.LLMCall
             (Ext.HttpPost (Some "https://api.deepseek.com/v1/chat/completions")
                [("Authorization", Some "Bearer ds-key");
                 ("Content-Type", Some "application/json")]
                "deepseek-chat" None
                [("system", AIClient.preamble);
                 ("user",
                  App.document_query
                    "Error extracting text: 'utf-8' codec can't decode byte 0xff in position 0: invalid start byte"
                    "Summarise")]
                2000 (Some 30%Z))] /\
    answer = "answer" /\
    MemoryManager.history_of (App.memory_manager app') "s1"
    = [("Document analysis query: Summarise", "answer")].
Proof.
  do 4 eexists.
  rewrite (failed_extraction_is_still_analysed Examples.web_app Examples.two_results
             Examples.plain_text_only "/tmp/tmpk3x9" Examples.broken_upload
             {| App.filename := "notes.TXT"; App.content := "broken" |}
             "'utf-8' codec can't decode byte 0xff in position 0: invalid start byte"
             eq_refl eq_refl eq_refl).
  repeat split; reflexivity.
Defined.



End DocumentFacts.

(** ** The study assistant *)

Section StudyFacts.
Import StudyAssistant.
Implicit Types (sys : Sys) (st : t).

(** X23: the study assistant starts exactly in two cases, decided by the
    value of AI_PROVIDER in small letters ("gemini" when the variable is
    not set): for "openai", when OPENAI_API_KEY is set and the openai
    package is installed; for "gemini" or "google", when the Google package
    is installed and GOOGLE_API_KEY or GOOGLE_APPLICATION_CREDENTIALS is
    set.  It then announces the provider, having registered the Google key
    if there is one.  In every other case the start-up raises a
    [RuntimeError] and prints nothing. *)
Theorem study_assistant_startup sys :
  let name := Py.lower (default "gemini" (getenv sys "AI_PROVIDER")) in
  let ready :=
    (String.eqb name "openai"
     && Py.truthy (getenv sys "OPENAI_API_KEY") && openai_installed sys)
    || ((String.eqb name "gemini" || String.eqb name "google")
        && ggen_installed sys
        && (Py.truthy (getenv sys "GOOGLE_API_KEY")
            || Py.truthy (getenv sys "GOOGLE_APPLICATION_CREDENTIALS"))) in
  (ready = true ->
   exists p,
     startup sys =
     ((if negb (String.eqb name "openai") && Py.truthy (getenv sys "GOOGLE_API_KEY")
       then [Ext.GenaiConfigure (getenv sys "GOOGLE_API_KEY")] else [])
      ++ [Ext.Print ("Using AI provider: " +:+ name)],
      Py.Returned {| PROVIDER := name; the_provider := p |})) /\
  (ready = false ->
   exists msg, startup sys = ([], Py.Raised ("RuntimeError: " +:+ msg))).
Proof.
  cbv zeta. unfold startup, new_openai, new_gemini.
  generalize (Py.lower (default "gemini" (getenv sys "AI_PROVIDER"))). intros name.
  assert (Hin : bool_decide (name ∈ ["gemini"; "google"])
                = String.eqb name "gemini" || String.eqb name "google").
  { destruct (String.eqb_spec name "gemini") as [-> | H1]; [done |].
    destruct (String.eqb_spec name "google") as [-> | H2]; [done |].
    apply bool_decide_eq_false_2. intros Hin.
    repeat (apply elem_of_cons in Hin as [? | Hin]; [done |]).
    by apply elem_of_nil in Hin. }
  rewrite Hin. clear Hin.
  destruct (String.eqb_spec name "openai") as [-> | Ho].
  - simpl String.eqb.
    destruct (Py.truthy (getenv sys "OPENAI_API_KEY"));
      destruct (openai_installed sys);
      destruct (ggen_installed sys);
      destruct (Py.truthy (getenv sys "GOOGLE_API_KEY"));
      destruct (Py.truthy (getenv sys "GOOGLE_APPLICATION_CREDENTIALS"));
      simpl; split; intros Hr; try discriminate Hr; eauto.
  - destruct (String.eqb name "gemini");
      destruct (String.eqb name "google");
      destruct (ggen_installed sys);
      destruct (Py.truthy (getenv sys "GOOGLE_API_KEY"));
      destruct (Py.truthy (getenv sys "GOOGLE_APPLICATION_CREDENTIALS"));
      simpl; split; intros Hr; try discriminate Hr; eauto.
Qed.

(** X24: [/api/chat] answers with the text of the provider under the
    provider's name, and turns a failure of the provider into an HTTP
    error 500 whose detail is the message of the exception, after printing
    it; the [mode] of the request has no influence on the answer. *)
Theorem chat_ignores_mode st sys prompt mode :
  Ext.result (chat st sys prompt mode) =
    Py.Returned match generate (the_provider st) sys prompt "chat" with
                | Ext.Ok resp => ChatOk (PROVIDER st) resp
                | Ext.Fail e => HTTPException 500 e
                end /\
  (forall e, generate (the_provider st) sys prompt "chat" = Ext.Fail e ->
             Ext.events (chat st sys prompt mode) =
             [Ext.Print ("Received request: " +:+ show_request sys prompt mode);
              Ext.Print ("Error processing request: " +:+ e)]) /\
  (forall mode',
      Ext.result (chat st sys prompt mode) = Ext.result (chat st sys prompt mode')).
Proof.
  assert (Hm : forall m, generate (the_provider st) sys prompt m
                         = generate (the_provider st) sys prompt "chat")
    by (intros m; by destruct (the_provider st)).
  unfold chat. split; [| split].
  - rewrite (Hm mode). by destruct (generate _ _ _ _).
  - intros e He. rewrite (Hm mode), He. done.
  - intros mode'. rewrite (Hm mode), (Hm mode'). by destruct (generate _ _ _ _).
Qed.

End StudyFacts.

(** ** The socket handler *)

Section SocketFacts.
Import App.
Implicit Types (s r : string) (c : ascii).

(** The character of a line break. *)
Local Abbreviation nlc := ("010"%char).

Lemma replace_nl_cons c r :
  Py.replace Py.nl "<br>" (String c r) =
  if Ascii.eqb c nlc then "<br>" +:+ Py.replace Py.nl "<br>" r
  else String c (Py.replace Py.nl "<br>" r).
Proof.
  unfold Py.replace, Py.nl.
  cbn [Py.replace_from Py.starts_with String.length Nat.sub].
  rewrite andb_true_r, (Ascii.eqb_sym nlc c). done.
Qed.

Lemma replace_blank_line_cons c r :
  Py.replace (Py.nl +:+ Py.nl) "<br><br>" (String c r) =
  match r with
  | String c' r' =>
      if Ascii.eqb c nlc && Ascii.eqb c' nlc
      then "<br><br>" +:+ Py.replace (Py.nl +:+ Py.nl) "<br><br>" r'
      else String c (Py.replace (Py.nl +:+ Py.nl) "<br><br>" r)
  | EmptyString => String c EmptyString
  end.
Proof.
  unfold Py.replace, Py.nl.
  change (String nlc "" +:+ String nlc "") with (String nlc (String nlc "")).
  cbn [Py.replace_from Py.starts_with String.length Nat.sub].
  rewrite (Ascii.eqb_sym nlc c). destruct r as [| c' r'].
  - rewrite andb_false_r. done.
  - cbn [Py.replace_from Py.starts_with]. rewrite andb_true_r, (Ascii.eqb_sym nlc c').
    done.
Qed.

Lemma blank_lines_first_is_redundant_len n s :
  String.length s <= n ->
  Py.replace Py.nl "<br>" (Py.replace (Py.nl +:+ Py.nl) "<br><br>" s)
  = Py.replace Py.nl "<br>" s.
Proof.
  revert s. induction n as [| n IH]; intros s Hn.
  - destruct s; [done | simpl in Hn; lia].
  - destruct s as [| c r]; [done |]. simpl in Hn.
    rewrite replace_blank_line_cons. destruct r as [| c' r'].
    + done.
    + simpl in Hn. destruct (Ascii.eqb_spec c nlc) as [-> | Hc].
      * destruct (Ascii.eqb_spec c' nlc) as [-> | Hc']; simpl andb; cbv iota.
        -- rewrite !replace_nl_cons. simpl.
           change ("<br><br>" +:+ ?x)
             with (String "<" (String "b" (String "r" (String ">"
                     (String "<" (String "b" (String "r" (String ">" x)))))))).
           rewrite !replace_nl_cons. simpl. rewrite IH by lia. done.
        -- rewrite replace_nl_cons. simpl. rewrite IH by (simpl; lia).
           by rewrite (replace_nl_cons nlc).
      * simpl andb. cbv iota. rewrite !(replace_nl_cons c).
        destruct (Ascii.eqb_spec c nlc) as [? | _]; [done |].
        by rewrite IH by (simpl; lia).
Qed.

Lemma replace_nl_no_newline s : nlc ∉ Py.chars (Py.replace Py.nl "<br>" s).
Proof.
  induction s as [| c r IH]; [apply not_elem_of_nil |].
  rewrite replace_nl_cons. destruct (Ascii.eqb_spec c nlc) as [-> | Hc].
  - change ("<br>" +:+ ?x)
      with (String "<" (String "b" (String "r" (String ">" x)))).
    simpl. repeat (apply not_elem_of_cons; split; [done |]). done.
  - simpl. apply not_elem_of_cons. split; [congruence | done].
Qed.

(** X25: the answer that the socket handler sends holds no line break: it
    is the stripped answer of the provider with every line break replaced
    by "<br>"; replacing the blank lines first changes nothing. *)
Theorem beautify_replaces_every_newline response :
  beautify response = Py.replace Py.nl "<br>" (Py.strip response) /\
  nlc ∉ Py.chars (beautify response).
Proof.
  unfold beautify. split.
  - by eapply blank_lines_first_is_redundant_len.
  - apply replace_nl_no_newline.
Qed.

(** X26: the socket handler runs the same pipeline as [/api/research]: on
    the same request it makes the same calls and leaves the components,
    the memory included, in the same state; it first reports the status
    "searching" and then sends what [/api/research] would reply, with the
    answer made into HTML.  The memory keeps the answer as the provider
    gave it. *)
Theorem socket_handler_follows_api_research (app : App.t) w data :
  exists evs reply app',
    api_research app w data = (evs, Py.Returned (reply, app')) /\
    handle_research_request app w data =
    (evs,
     Py.Returned
       ([ResearchStatus "searching";
         ResearchComplete (beautify (response reply)) (search_results reply)
           (session_id reply)],
        app')).
Proof.
  unfold api_research, handle_research_request.
  destruct (MemoryManager.get_context (memory_manager app)
              (default (Ext.uuid4 w) (rq_session_id data))) as [ctx mm].
  destruct (default false (rq_web_search data)
            && WebSearch.is_available (web_search app)).
  - destruct (search_returns (web_search app) w (default "" (rq_query data)) "auto")
      as (ev & rs & ->).
    destruct rs as [| r rs]; simpl;
      match goal with
      | |- context [AIClient.query ?c ?w' ?p ?q ?x] =>
          destruct (query_returns c w' p q x) as (evq & answer & Hq & _)
      end;
      rewrite Hq; simpl; eauto.
  - simpl.
    match goal with
    | |- context [AIClient.query ?c ?w' ?p ?q ?x] =>
        destruct (query_returns c w' p q x) as (evq & answer & Hq & _)
    end.
    rewrite Hq. simpl. eauto.
Qed.

End SocketFacts.

(** ** The terminal assistant *)

Section TerminalFacts.
Implicit Types (w : Ext.World).



End TerminalFacts.
